(** * MMT [scripts] package: path constants and the Java launch command

    A shallow embedding of [scripts/__init__.py].  The module computes a
    handful of path constants with [os.path] when it is loaded and exposes
    [mmt_javamain], which builds the argument vector of a JVM invocation.

    - [Str]        the [str] methods the code relies on;
    - [PosixPath]  [os.path] as CPython's [posixpath] defines it;
    - [Scripts]    the module itself: its globals, the object store its
                   lists live in, and [mmt_javamain]. *)

From Stdlib Require Import ZArith String Ascii List Bool Lia.
From stdpp Require Import base option gmap list strings.

Local Open Scope Z_scope.

(** ** Python [str] methods *)

Module Str.

(** [s.startswith(pre)] *)
Definition startswith (s pre : string) : bool := String.prefix pre s.

(** [s.endswith(c)] for a one-character [c] *)
Fixpoint endswith (s : string) (c : ascii) : bool :=
  match s with
  | EmptyString => false
  | String a EmptyString => Ascii.eqb a c
  | String _ s' => endswith s' c
  end.

(** [s.rfind(c)]: the highest index of [c] in [s], or [-1] *)
Fixpoint rfind (s : string) (c : ascii) : Z :=
  match s with
  | EmptyString => -1
  | String a s' =>
      let r := rfind s' c in
      if 0 <=? r then r + 1
      else if Ascii.eqb a c then 0 else -1
  end.

(** [s[:i]] for [0 <= i] *)
Definition slice_to (s : string) (i : Z) : string :=
  String.substring 0 (Z.to_nat i) s.

(** [c * n] *)
Fixpoint repeat (c : ascii) (n : nat) : string :=
  match n with
  | O => EmptyString
  | S n' => String c (repeat c n')
  end.

(** [s.rstrip(c)] *)
Fixpoint rstrip (s : string) (c : ascii) : string :=
  match s with
  | EmptyString => EmptyString
  | String a s' =>
      match rstrip s' c with
      | EmptyString => if Ascii.eqb a c then EmptyString else String a EmptyString
      | r => String a r
      end
  end.

(** [s.split(c)]: never empty, [''.split(c) = ['']] *)
Fixpoint split (s : string) (c : ascii) : list string :=
  match s with
  | EmptyString => [EmptyString]
  | String a s' =>
      if Ascii.eqb a c then EmptyString :: split s' c
      else match split s' c with
           | [] => [String a EmptyString]
           | w :: ws => String a w :: ws
           end
  end.

(** [sep.join(l)] *)
Definition join (sep : string) (l : list string) : string :=
  String.concat sep l.

(** [c in s] *)
Fixpoint contains (s : string) (c : ascii) : bool :=
  match s with
  | EmptyString => false
  | String a s' => Ascii.eqb a c || contains s' c
  end.

(** A [str] is held as its UTF-8 encoding.  [isascii()]: every byte is below
    128, so every character is one byte. *)
Definition is_ascii_byte (c : ascii) : bool :=
  match c with
  | Ascii _ _ _ _ _ _ _ b7 => negb b7
  end.

Fixpoint isascii (s : string) : bool :=
  match s with
  | EmptyString => true
  | String a s' => is_ascii_byte a && isascii s'
  end.

(** A byte [10xxxxxx]: it continues the character begun before it. *)
Definition is_continuation (c : ascii) : bool :=
  match c with
  | Ascii _ _ _ _ _ _ b6 b7 => b7 && negb b6
  end.

(** The continuation bytes [s] starts with, and the characters after them. *)
Fixpoint chars_aux (s : string) : string * list string :=
  match s with
  | EmptyString => (EmptyString, [])
  | String a s' =>
      let (pending, cs) := chars_aux s' in
      if is_continuation a then (String a pending, cs)
      else (EmptyString, String a pending :: cs)
  end.

(** [list(s)]: the characters of [s], each a string of length one, held as
    a leading byte with the continuation bytes that follow it. *)
Definition chars (s : string) : list string :=
  let (pending, cs) := chars_aux s in
  match pending with
  | EmptyString => cs
  | _ => pending :: cs
  end.

End Str.

(** ** [os.path] on POSIX *)

Module PosixPath.

Definition sep : ascii := "/"%char.
Definition pardir : string := "..".
Definition curdir : string := ".".

(** [isabs(s)]: [s.startswith('/')] *)
Definition isabs (s : string) : bool := Str.startswith s "/".

(** [join(a, b)]: the loop of [posixpath.join] for one extra component *)
Definition join (a b : string) : string :=
  if Str.startswith b "/" then b
  else if String.eqb a "" || Str.endswith a sep then a +:+ b
  else a +:+ "/" +:+ b.

(** [dirname(p)] *)
Definition dirname (p : string) : string :=
  let i := Str.rfind p sep + 1 in
  let head := Str.slice_to p i in
  if negb (String.eqb head "")
     && negb (String.eqb head (Str.repeat sep (String.length head)))
  then Str.rstrip head sep
  else head.

(** One iteration of the loop of [normpath] over the components. *)
Definition normpath_step (initial_slashes : nat)
    (new_comps : list string) (comp : string) : list string :=
  if String.eqb comp "" || String.eqb comp curdir then new_comps
  else if negb (String.eqb comp pardir)
          || (Nat.eqb initial_slashes 0 && bool_decide (new_comps = []))
          || (negb (bool_decide (new_comps = []))
              && String.eqb (List.last new_comps "") pardir)
  then new_comps ++ [comp]
  else if negb (bool_decide (new_comps = [])) then removelast new_comps
  else new_comps.

(** POSIX keeps exactly two leading slashes, and folds three or more. *)
Definition initial_slashes (path : string) : nat :=
  if Str.startswith path "/" then
    if Str.startswith path "//" && negb (Str.startswith path "///")
    then 2%nat else 1%nat
  else 0%nat.

(** [normpath(path)] *)
Definition normpath (path : string) : string :=
  if String.eqb path "" then curdir
  else
    let n := initial_slashes path in
    let comps := Str.split path sep in
    let new_comps := fold_left (normpath_step n) comps [] in
    let path' := Str.repeat sep n +:+ Str.join "/" new_comps in
    if String.eqb path' "" then curdir else path'.

(** [abspath(path)], with [cwd] the value of [os.getcwd()] *)
Definition abspath (cwd path : string) : string :=
  normpath (if isabs path then path else join cwd path).

End PosixPath.

(** ** The module [scripts] *)

Module Scripts.

(** *** Module-level names

    The names bound by the top-level statements of the module.  All of them
    hold [str] objects. *)

Record globals : Type := Globals {
  __self_dir : string;
  MMT_VERSION : string;
  MMT_ROOT : string;
  ENGINES_DIR : string;
  RUNTIME_DIR : string;
  OPT_DIR : string;
  LIB_DIR : string;
  BUILD_DIR : string;
  BIN_DIR : string;
  MMT_JAR : string;
  MMT_LIBS : string
}.

(** Execution of the top-level statements, in source order.
    [real_file] is the value of [os.path.realpath(__file__)], which depends
    on the file system only, and [cwd] is the value of [os.getcwd()], which
    [os.path.abspath] consults for a relative argument. *)
Definition module_init (real_file cwd : string) : globals :=
  let __self_dir := PosixPath.dirname real_file in
  let MMT_VERSION := "0.11.1" in
  let MMT_ROOT :=
    PosixPath.abspath cwd (PosixPath.join __self_dir PosixPath.pardir) in
  let ENGINES_DIR := PosixPath.join MMT_ROOT "engines" in
  let RUNTIME_DIR := PosixPath.join MMT_ROOT "runtime" in
  let OPT_DIR := PosixPath.join MMT_ROOT "opt" in
  let LIB_DIR := PosixPath.join MMT_ROOT "lib" in
  let BUILD_DIR := PosixPath.join MMT_ROOT "build" in
  let BIN_DIR := PosixPath.join OPT_DIR "bin" in
  let MMT_JAR :=
    PosixPath.join BUILD_DIR ("mmt-" +:+ MMT_VERSION +:+ ".jar") in
  let MMT_LIBS := BUILD_DIR in
  Globals __self_dir MMT_VERSION MMT_ROOT ENGINES_DIR RUNTIME_DIR OPT_DIR
          LIB_DIR BUILD_DIR BIN_DIR MMT_JAR MMT_LIBS.

(** *** Objects

    [str] and [int] objects are immutable and are modelled by their value
    (a [str] by its UTF-8 encoding); a [list] is a mutable object, so a list
    value is a reference into the store and two names may denote the same
    list. *)

Definition loc := positive.

Inductive value : Type :=
| VNone
| VStr (s : string)
| VInt (z : Z)
| VList (l : loc).

Inductive exn : Type :=
| TypeError     (* the right operand of [+=] is not iterable *)
| SystemError.  (* a reference to an object that does not exist *)

Record state : Type := State {
  st_globals : globals;
  st_heap : gmap loc (list value)
}.

Inductive outcome (A : Type) : Type :=
| Ret (a : A)
| Raise (e : exn).
Arguments Ret {A} a.
Arguments Raise {A} e.

(** Computations over the store that may raise. *)
Definition M (A : Type) : Type := state -> outcome A * state.

#[export] Instance M_ret : MRet M := fun A a s => (Ret a, s).
#[export] Instance M_bind : MBind M := fun A B f m s =>
  match m s with
  | (Ret a, s') => f a s'
  | (Raise e, s') => (Raise e, s')
  end.

Definition raise {A} (e : exn) : M A := fun s => (Raise e, s).

(** Read a module-level name. *)
Definition global (name : globals -> string) : M string :=
  fun s => (Ret (name (st_globals s)), s).

(** A list display [[v1, ..., vn]]: a new list object. *)
Definition new_list (items : list value) : M loc :=
  fun s =>
    let l := fresh (dom (st_heap s)) in
    (Ret l, State (st_globals s) (<[l := items]> (st_heap s))).

(** The list object at [l]. *)
Definition load (l : loc) : M (list value) :=
  fun s =>
    match st_heap s !! l with
    | Some items => (Ret items, s)
    | None => (Raise SystemError, s)
    end.

(** Overwrite the list object at [l]. *)
Definition store (l : loc) (items : list value) : M unit :=
  fun s => (Ret tt, State (st_globals s) (<[l := items]> (st_heap s))).

(** The items iterating over [v] yields: the elements of a list, the
    characters of a string; [None] and integers are not iterable. *)
Definition iterate (v : value) : M (list value) :=
  match v with
  | VList a => load a
  | VStr t => mret (VStr <$> Str.chars t)
  | VNone | VInt _ => raise TypeError
  end.

(** [target += v] on a list [target]: [list.__iadd__] extends the list
    in place with the items of [v]. *)
Definition list_iadd (target : loc) (v : value) : M unit :=
  items ← iterate v;
  old ← load target;
  store target (old ++ items).

(** [v is not None] *)
Definition is_not_none (v : value) : bool :=
  match v with
  | VNone => false
  | _ => true
  end.

(** *** [mmt_javamain]

    [args] is [None] when the caller gives no second argument. *)
Definition mmt_javamain (main_class : value) (args : option value) : M value :=
  let args := default VNone args in
  jar ← global MMT_JAR;
  root ← global MMT_ROOT;
  libs ← global MMT_LIBS;
  command ← new_list [VStr "java"; VStr "-cp"; VStr jar;
                      VStr ("-Dmmt.home=" +:+ root);
                      VStr ("-Djava.library.path=" +:+ libs);
                      main_class];
  _ ← (if is_not_none args then list_iadd command args else mret tt);
  mret (VList command).

(** The list a call returns, read from the store the call leaves. *)
Definition returned_list (r : outcome value * state) : option (list value) :=
  match r with
  | (Ret (VList l), s) => st_heap s !! l
  | _ => None
  end.

(** *** Process states

    The states a process goes through once the module is loaded from
    [real_file]: the module's own operations are a read of one of its names
    and a call of [mmt_javamain]; between them the callers may create and
    mutate lists at will. *)
Inductive reachable (real_file cwd : string) : state -> Prop :=
| reach_load h :
    reachable real_file cwd (State (module_init real_file cwd) h)
| reach_read s name :
    reachable real_file cwd s ->
    reachable real_file cwd (snd (global name s))
| reach_call s main_class args :
    reachable real_file cwd s ->
    reachable real_file cwd (snd (mmt_javamain main_class args s))
| reach_store s h :
    reachable real_file cwd s ->
    reachable real_file cwd (State (st_globals s) h).

(** [scripts.MMT_VERSION = v]: an assignment to the module-level name.  The
    module has no such statement after line 7; a client of the module can
    execute one, and it rebinds this one name only. *)
Definition assign_MMT_VERSION (v : string) : M unit :=
  fun s =>
    let g := st_globals s in
    (Ret tt,
     State (Globals (__self_dir g) v (MMT_ROOT g) (ENGINES_DIR g)
              (RUNTIME_DIR g) (OPT_DIR g) (LIB_DIR g) (BUILD_DIR g)
              (BIN_DIR g) (MMT_JAR g) (MMT_LIBS g))
           (st_heap s)).

End Scripts.

(** ** Shapes of paths

    Auxiliary notions for the proofs about [os.path]: a path is laid out as
    [k] leading slashes followed by components joined with single slashes. *)

Module Shape.

(** A component that [split] can give back: not empty, no separator. *)
Definition seg_ok (c : string) : Prop :=
  c <> "" /\ Str.contains c PosixPath.sep = false.

(** A component of a normalised path: moreover neither [.] nor [..]. *)
Definition name_ok (c : string) : Prop :=
  seg_ok c /\ c <> PosixPath.curdir /\ c <> PosixPath.pardir.

Definition render (k : nat) (cs : list string) : string :=
  Str.repeat PosixPath.sep k +:+ Str.join "/" cs.

End Shape.

(** ** Facts about [str] *)

Section StrFacts.

Lemma app_String a s t : String a s +:+ t = String a (s +:+ t).
Proof. reflexivity. Qed.

Lemma app_empty_l s : "" +:+ s = s.
Proof. reflexivity. Qed.

Lemma app_empty_r s : s +:+ "" = s.
Proof. induction s as [|a s IH]; [done|]. by rewrite app_String, IH. Qed.

Lemma app_assoc_str s t u : (s +:+ t) +:+ u = s +:+ (t +:+ u).
Proof. induction s as [|a s IH]; [done|]. by rewrite !app_String, IH. Qed.

Lemma app_eq_empty s t : s +:+ t = "" -> s = "" /\ t = "".
Proof. destruct s; [done|]. rewrite app_String. discriminate. Qed.

Lemma contains_app s t c :
  Str.contains (s +:+ t) c = Str.contains s c || Str.contains t c.
Proof.
  induction s as [|a s IH]; [done|].
  rewrite app_String. simpl. by rewrite IH, orb_assoc.
Qed.

(** *** [split] and [join] *)

Lemma split_not_nil s c : Str.split s c <> [].
Proof.
  induction s as [|a s IH]; simpl; [done|].
  destruct (Ascii.eqb a c); [done|]. by destruct (Str.split s c).
Qed.

Lemma split_no_sep s c : Str.contains s c = false -> Str.split s c = [s].
Proof.
  induction s as [|a s IH]; simpl; [done|].
  intros [Ha Hs]%orb_false_elim. by rewrite Ha, (IH Hs).
Qed.

Lemma split_app_sep s t c :
  Str.contains s c = false ->
  Str.split (s +:+ String c t) c = s :: Str.split t c.
Proof.
  induction s as [|a s IH]; intros H.
  - rewrite app_empty_l. simpl. by rewrite Ascii.eqb_refl.
  - simpl in H. apply orb_false_elim in H as [Ha Hs].
    rewrite app_String. simpl. by rewrite Ha, (IH Hs).
Qed.

Lemma split_contains s c :
  Forall (fun w => Str.contains w c = false) (Str.split s c).
Proof.
  induction s as [|a s IH]; simpl.
  - by constructor.
  - destruct (Ascii.eqb a c) eqn:Ha; [by constructor|].
    destruct (Str.split s c) as [|w ws]; [by constructor; simpl; rewrite ?Ha|].
    inversion IH; subst. constructor; [|done]. simpl. by rewrite Ha.
Qed.

Lemma join_cons_cons sep c c' cs :
  Str.join sep (c :: c' :: cs) = c +:+ sep +:+ Str.join sep (c' :: cs).
Proof. reflexivity. Qed.

Lemma join_snoc sep cs c :
  cs <> [] -> Str.join sep (cs ++ [c]) = Str.join sep cs +:+ sep +:+ c.
Proof.
  induction cs as [|x [|y cs] IH]; intros Hne; [done|done|].
  change ((x :: y :: cs) ++ [c]) with (x :: y :: (cs ++ [c])).
  rewrite !join_cons_cons.
  change (y :: cs ++ [c]) with ((y :: cs) ++ [c]).
  rewrite IH by done. by rewrite !app_assoc_str.
Qed.

Lemma split_join cs c :
  cs <> [] -> Forall (fun w => Str.contains w c = false) cs ->
  Str.split (Str.join (String c "") cs) c = cs.
Proof.
  induction cs as [|x [|y cs] IH]; intros Hne Hall; [done| |].
  - inversion Hall; subst. by apply split_no_sep.
  - inversion Hall; subst. rewrite join_cons_cons, app_String, app_empty_l.
    rewrite split_app_sep by done. by rewrite IH.
Qed.

Lemma split_repeat_app k s c :
  Str.split (Str.repeat c k +:+ s) c = replicate k "" ++ Str.split s c.
Proof.
  induction k as [|k IH]; [done|].
  simpl Str.repeat. rewrite app_String. simpl. by rewrite Ascii.eqb_refl, IH.
Qed.

(** *** [rfind], slices and [rstrip] *)

Lemma rfind_ge s c : -1 <= Str.rfind s c.
Proof.
  induction s as [|a s IH]; simpl; [lia|].
  destruct (0 <=? Str.rfind s c) eqn:E; [lia|]. destruct (Ascii.eqb a c); lia.
Qed.

Lemma rfind_no_sep s c : Str.contains s c = false -> Str.rfind s c = -1.
Proof.
  induction s as [|a s IH]; simpl; [done|].
  intros [Ha Hs]%orb_false_elim. by rewrite (IH Hs), Ha.
Qed.

Lemma rfind_app_sep s t c :
  Str.contains t c = false ->
  Str.rfind (s +:+ String c t) c = Z.of_nat (String.length s).
Proof.
  intros Ht. induction s as [|a s IH].
  - rewrite app_empty_l. simpl. by rewrite (rfind_no_sep _ _ Ht), Ascii.eqb_refl.
  - rewrite app_String. simpl Str.rfind. rewrite IH.
    destruct (0 <=? Z.of_nat (String.length s)) eqn:E; [simpl; lia|lia].
Qed.

Lemma length_app_str s t :
  String.length (s +:+ t) = (String.length s + String.length t)%nat.
Proof. induction s as [|a s IH]; [done|]. rewrite app_String. simpl. by rewrite IH. Qed.

Lemma substring_app_l s t :
  String.substring 0 (String.length s) (s +:+ t) = s.
Proof.
  induction s as [|a s IH].
  - simpl. by destruct (_ +:+ _).
  - rewrite app_String. simpl. by rewrite IH.
Qed.

Lemma slice_to_app_sep s t c :
  Str.slice_to (s +:+ String c t) (Z.of_nat (String.length s) + 1)
  = s +:+ String c "".
Proof.
  unfold Str.slice_to.
  replace (Z.to_nat (Z.of_nat (String.length s) + 1))
    with (String.length (s +:+ String c "")) by (rewrite length_app_str; simpl; lia).
  replace (s +:+ String c t) with ((s +:+ String c "") +:+ t)
    by (by rewrite app_assoc_str).
  apply substring_app_l.
Qed.

Lemma rstrip_repeat c n : Str.rstrip (Str.repeat c n) c = "".
Proof. induction n as [|n IH]; simpl; [done|]. by rewrite IH, Ascii.eqb_refl. Qed.

Lemma rstrip_app_sep s c : Str.rstrip (s +:+ String c "") c = Str.rstrip s c.
Proof.
  induction s as [|a s IH].
  - rewrite app_empty_l. simpl. by rewrite Ascii.eqb_refl.
  - rewrite app_String. simpl. by rewrite IH.
Qed.

Lemma rstrip_not_endswith s c : Str.endswith s c = false -> Str.rstrip s c = s.
Proof.
  induction s as [|a s IH]; [done|].
  simpl. destruct s as [|b s].
  - simpl. by intros ->.
  - intros H. rewrite (IH H). done.
Qed.

Lemma rstrip_empty s c :
  Str.rstrip s c = "" -> s = Str.repeat c (String.length s).
Proof.
  induction s as [|a s IH]; simpl; [done|].
  destruct (Str.rstrip s c) eqn:E; [|done].
  destruct (Ascii.eqb a c) eqn:Ha; [|done].
  apply Ascii.eqb_eq in Ha as ->. intros _. by rewrite <- IH.
Qed.

Lemma rstrip_head a s c :
  String a s <> Str.repeat c (String.length (String a s)) ->
  exists r, Str.rstrip (String a s) c = String a r.
Proof.
  intros Hne. simpl. destruct (Str.rstrip s c) eqn:E; [|by eexists].
  destruct (Ascii.eqb a c) eqn:Ha; [|by eexists].
  exfalso. apply Hne. apply Ascii.eqb_eq in Ha as ->.
  simpl. by rewrite <- (rstrip_empty _ _ E).
Qed.

Lemma endswith_app s t c : t <> "" -> Str.endswith (s +:+ t) c = Str.endswith t c.
Proof.
  intros Ht. induction s as [|a s IH]; [done|].
  rewrite app_String. simpl. rewrite IH.
  destruct (s +:+ t) eqn:E; [|done].
  by apply app_eq_empty in E as [_ ?].
Qed.

Lemma endswith_no_sep s c : Str.contains s c = false -> Str.endswith s c = false.
Proof.
  induction s as [|a s IH]; [done|]. simpl.
  intros [Ha Hs]%orb_false_elim. destruct s; [done|]. by apply IH.
Qed.

Lemma endswith_repeat c n : n <> 0%nat -> Str.endswith (Str.repeat c n) c = true.
Proof.
  induction n as [|[|n] IH]; intros Hn; [done| |].
  - simpl. apply Ascii.eqb_refl.
  - change (Str.endswith (Str.repeat c (S n)) c = true). by apply IH.
Qed.

End StrFacts.

(** ** [os.path] on concrete paths *)

Section PathExamples.

Import PosixPath.

Example join_relative : join "/foo" "bar" = "/foo/bar".
Proof. reflexivity. Qed.

Example join_trailing_slash : join "/foo/" "bar" = "/foo/bar".
Proof. reflexivity. Qed.

Example join_absolute : join "/foo" "/bar" = "/bar".
Proof. reflexivity. Qed.

Example join_empty : join "/foo" "" = "/foo/".
Proof. reflexivity. Qed.

Example dirname_file : dirname "/foo/bar" = "/foo".
Proof. reflexivity. Qed.

Example dirname_root : dirname "/" = "/".
Proof. reflexivity. Qed.

Example dirname_relative : dirname "foo" = "".
Proof. reflexivity. Qed.

Example dirname_slashes_only : dirname "////foo" = "////".
Proof. reflexivity. Qed.

Example dirname_double_slashes : dirname "//foo//bar" = "//foo".
Proof. reflexivity. Qed.

Example normpath_empty : normpath "" = ".".
Proof. reflexivity. Qed.

Example normpath_two_slashes : normpath "//" = "//".
Proof. reflexivity. Qed.

Example normpath_three_slashes : normpath "///" = "/".
Proof. reflexivity. Qed.

Example normpath_dots : normpath "///foo/.//bar//.//..//.//baz" = "/foo/baz".
Proof. reflexivity. Qed.

Example normpath_above_root : normpath "///..//./foo/.//bar" = "/foo/bar".
Proof. reflexivity. Qed.

Example normpath_relative_pardir : normpath "a/../../b" = "../b".
Proof. reflexivity. Qed.

Example abspath_relative : abspath "/home/user" "mmt/scripts/.." = "/home/user/mmt".
Proof. reflexivity. Qed.

End PathExamples.

(** ** Facts about [os.path] *)

Section PathFacts.

Import PosixPath Shape.

Lemma startswith_empty s : Str.startswith s "" = true.
Proof. by destruct s. Qed.

Lemma startswith_String a s b pre :
  Str.startswith (String a s) (String b pre)
  = Ascii.eqb b a && Str.startswith s pre.
Proof.
  unfold Str.startswith. cbn [String.prefix].
  destruct (ascii_dec b a) as [->|Hne].
  - by rewrite Ascii.eqb_refl.
  - apply Ascii.eqb_neq in Hne. by rewrite Hne.
Qed.

Lemma startswith_sep s :
  Str.startswith s "/" = true <-> exists t, s = String sep t.
Proof.
  destruct s as [|a s].
  - split; [done|]. by intros [? ?].
  - rewrite startswith_String, startswith_empty, andb_true_r.
    rewrite Ascii.eqb_eq. split; [intros <-; by eexists|]. by intros [t [= ->]].
Qed.

Lemma isabs_String t : isabs (String sep t) = true.
Proof. apply startswith_sep. by eexists. Qed.

Lemma isabs_join a b : isabs a = true -> isabs (join a b) = true.
Proof.
  intros [t ->]%startswith_sep. unfold join.
  destruct (Str.startswith b "/") eqn:Hb; [done|].
  destruct (_ || _); rewrite app_String; apply isabs_String.
Qed.

Lemma initial_slashes_isabs p :
  isabs p = true -> initial_slashes p = 1%nat \/ initial_slashes p = 2%nat.
Proof.
  unfold isabs, initial_slashes. intros ->. destruct (_ && _); auto.
Qed.

Lemma isabs_normpath p : isabs p = true -> isabs (normpath p) = true.
Proof.
  intros Hp. unfold normpath.
  destruct (String.eqb p "") eqn:E.
  { apply String.eqb_eq in E as ->. done. }
  destruct (initial_slashes_isabs p Hp) as [-> | ->]; simpl Str.repeat;
    rewrite !app_String; simpl String.eqb; apply isabs_String.
Qed.

Lemma rfind_head t c : 0 <= Str.rfind (String c t) c.
Proof.
  simpl. pose proof (rfind_ge t c).
  destruct (0 <=? Str.rfind t c) eqn:E; [lia|]. by rewrite Ascii.eqb_refl.
Qed.

Lemma isabs_dirname p : isabs p = true -> isabs (dirname p) = true.
Proof.
  intros [t ->]%startswith_sep. unfold dirname.
  pose proof (rfind_head t sep) as Hr.
  assert (exists h, Str.slice_to (String sep t) (Str.rfind (String sep t) sep + 1)
                    = String sep h) as [h ->].
  { unfold Str.slice_to.
    destruct (Z.to_nat (Str.rfind (String sep t) sep + 1)) as [|n] eqn:E; [lia|].
    simpl. by eexists. }
  destruct (negb _ && negb _) eqn:E; [|apply isabs_String].
  apply andb_true_iff in E as [_ E]. apply negb_true_iff, String.eqb_neq in E.
  destruct (rstrip_head _ _ _ E) as [r ->]. apply isabs_String.
Qed.

(** *** Paths laid out as slashes and components *)

Lemma repeat_snoc c n : Str.repeat c n +:+ String c "" = Str.repeat c (S n).
Proof. induction n as [|n IH]; [done|]. simpl. by rewrite app_String, IH. Qed.

Lemma length_repeat c n : String.length (Str.repeat c n) = n.
Proof. induction n as [|n IH]; simpl; by rewrite ?IH. Qed.

Lemma seg_ok_head c : seg_ok c -> exists a t, c = String a t /\ Ascii.eqb a sep = false.
Proof.
  intros [Hne Hc]. destruct c as [|a t]; [done|].
  simpl in Hc. apply orb_false_elim in Hc as [Ha _]. by exists a, t.
Qed.

Lemma join_seg_ok cs :
  cs <> [] -> Forall seg_ok cs ->
  Str.join "/" cs <> "" /\ Str.endswith (Str.join "/" cs) sep = false.
Proof.
  intros Hne Hall. destruct (exists_last Hne) as (cs' & c & ->).
  apply Forall_app in Hall as [_ Hc]. inversion Hc as [|? ? [Hc1 Hc2] _]; subst.
  destruct cs' as [|x cs'].
  - simpl. split; [done|]. by apply endswith_no_sep.
  - rewrite join_snoc by done. split.
    + intros [_ [? ?]%app_eq_empty]%app_eq_empty. done.
    + rewrite <- app_assoc_str. rewrite endswith_app by done. by apply endswith_no_sep.
Qed.

Lemma join_startswith cs :
  Forall seg_ok cs -> Str.startswith (Str.join "/" cs) "/" = false.
Proof.
  intros Hall. destruct cs as [|c cs]; [done|].
  inversion Hall as [|? ? Hc _]; subst.
  destruct (seg_ok_head _ Hc) as (a & t & -> & Ha).
  apply not_true_is_false. intros [u Hu]%startswith_sep.
  destruct cs; simpl in Hu; [|rewrite app_String in Hu];
    injection Hu as -> _; by rewrite Ascii.eqb_refl in Ha.
Qed.

Lemma render_nonempty k cs : k <> 0%nat -> render k cs <> "".
Proof. destruct k; [done|]. intros _. unfold render. simpl. by rewrite app_String. Qed.

Lemma initial_slashes_render k cs :
  k = 1%nat \/ k = 2%nat -> Forall seg_ok cs -> initial_slashes (render k cs) = k.
Proof.
  intros Hk Hall. pose proof (join_startswith cs Hall) as Hj.
  unfold render, initial_slashes.
  destruct Hk as [-> | ->]; simpl Str.repeat; rewrite !app_String, app_empty_l;
    rewrite !startswith_String, ?startswith_empty, !Ascii.eqb_refl;
    destruct (Str.join "/" cs) as [|a j]; try done;
    rewrite !startswith_String in *; rewrite ?startswith_empty in *;
    rewrite andb_true_r in Hj; by rewrite ?Hj.
Qed.

Lemma seg_ok_contains cs :
  Forall seg_ok cs -> Forall (fun w => Str.contains w sep = false) cs.
Proof. intros H. eapply Forall_impl; [exact H|]. by intros ? [_ ?]. Qed.

Lemma split_render k cs :
  cs <> [] -> Forall seg_ok cs ->
  Str.split (render k cs) sep = replicate k "" ++ cs.
Proof.
  intros Hne Hall. unfold render. rewrite split_repeat_app. f_equal.
  apply (split_join cs sep Hne). by apply seg_ok_contains.
Qed.

(** *** The loop of [normpath] *)

Lemma step_skip n acc : normpath_step n acc "" = acc.
Proof. reflexivity. Qed.

Lemma step_name n acc c : name_ok c -> normpath_step n acc c = acc ++ [c].
Proof.
  intros [[Hne _] [Hcur Hpar]]. unfold normpath_step.
  apply String.eqb_neq in Hne, Hcur, Hpar. by rewrite Hne, Hcur, Hpar.
Qed.

Lemma last_name_ok acc : acc <> [] -> Forall name_ok acc -> name_ok (List.last acc "").
Proof.
  intros Hne Hall. destruct (exists_last Hne) as (acc' & c & ->).
  rewrite last_last. apply Forall_app in Hall as [_ Hc]. by inversion Hc.
Qed.

Lemma step_pardir n acc :
  n <> 0%nat -> Forall name_ok acc -> normpath_step n acc pardir = removelast acc.
Proof.
  intros Hn Hall. unfold normpath_step.
  change (String.eqb pardir "" || String.eqb pardir curdir) with false.
  change (String.eqb pardir pardir) with true. cbn [negb orb].
  apply Nat.eqb_neq in Hn. rewrite Hn. cbn [andb].
  destruct acc as [|x acc]; [done|].
  rewrite bool_decide_eq_false_2 by done. cbn [negb andb].
  destruct (last_name_ok (x :: acc)) as (_ & _ & Hl); [done|done|].
  apply String.eqb_neq in Hl. by rewrite Hl.
Qed.

Lemma fold_skip n k acc :
  fold_left (normpath_step n) (replicate k "") acc = acc.
Proof. induction k as [|k IH]; [done|]. simpl. by rewrite step_skip. Qed.

Lemma fold_names n cs acc :
  Forall name_ok cs -> fold_left (normpath_step n) cs acc = acc ++ cs.
Proof.
  intros Hall. revert acc. induction Hall as [|c cs Hc _ IH]; intros acc.
  - by rewrite app_nil_r.
  - simpl. rewrite step_name by done. rewrite IH. by rewrite <- app_assoc.
Qed.

Lemma step_keeps n acc c :
  n <> 0%nat -> Str.contains c sep = false -> Forall name_ok acc ->
  Forall name_ok (normpath_step n acc c).
Proof.
  intros Hn Hc Hall. unfold normpath_step.
  destruct (String.eqb c "") eqn:E1; [done|].
  destruct (String.eqb c curdir) eqn:E2; [done|]. cbn [orb].
  apply String.eqb_neq in E1, E2.
  destruct (String.eqb c pardir) eqn:E3.
  - apply Nat.eqb_neq in Hn. rewrite Hn. cbn [negb orb andb].
    destruct acc as [|x acc]; [done|].
    rewrite bool_decide_eq_false_2 by done. cbn [negb andb].
    destruct (last_name_ok (x :: acc)) as (_ & _ & Hl); [done|done|].
    apply String.eqb_neq in Hl. rewrite Hl.
    destruct (exists_last (l := x :: acc)) as (acc' & y & Heq); [done|].
    rewrite Heq in Hall |- *. rewrite removelast_last.
    by apply Forall_app in Hall as [? _].
  - apply String.eqb_neq in E3. cbn [negb orb].
    apply Forall_app. split; [done|]. by repeat constructor.
Qed.

Lemma fold_keeps n cs acc :
  n <> 0%nat -> Forall (fun w => Str.contains w sep = false) cs ->
  Forall name_ok acc -> Forall name_ok (fold_left (normpath_step n) cs acc).
Proof.
  intros Hn Hcs. revert acc. induction Hcs as [|c cs Hc _ IH]; intros acc Hacc.
  - done.
  - simpl. apply IH. by apply step_keeps.
Qed.

(** The result of [normpath] on an absolute path: one or two slashes and
    then proper names only. *)
Lemma normpath_shape p :
  isabs p = true ->
  exists k cs, (k = 1%nat \/ k = 2%nat) /\ Forall name_ok cs
               /\ normpath p = render k cs.
Proof.
  intros Hp. exists (initial_slashes p).
  exists (fold_left (normpath_step (initial_slashes p)) (Str.split p sep) []).
  pose proof (initial_slashes_isabs p Hp) as Hk.
  split; [done|]. split.
  - apply fold_keeps; [lia|apply split_contains|constructor].
  - unfold normpath. destruct (String.eqb p "") eqn:E.
    { apply String.eqb_eq in E as ->. done. }
    fold (render (initial_slashes p)
            (fold_left (normpath_step (initial_slashes p)) (Str.split p sep) [])).
    rewrite (proj2 (String.eqb_neq _ _)); [done|]. apply render_nonempty. lia.
Qed.

Lemma name_ok_seg_ok cs : Forall name_ok cs -> Forall seg_ok cs.
Proof. intros H. eapply Forall_impl; [exact H|]. by intros ? [? _]. Qed.

Lemma seg_ok_pardir : seg_ok pardir.
Proof. by split. Qed.

(** [normpath] of a normalised path followed by [..]: the last name goes. *)
Lemma normpath_render_pardir k ds :
  k = 1%nat \/ k = 2%nat -> Forall name_ok ds ->
  normpath (render k (ds ++ [pardir])) = render k (removelast ds).
Proof.
  intros Hk Hds.
  assert (Forall seg_ok (ds ++ [pardir])) as Hseg.
  { apply Forall_app. split; [by apply name_ok_seg_ok|].
    repeat constructor; apply seg_ok_pardir. }
  assert (k <> 0%nat) as Hk0 by lia.
  unfold normpath.
  rewrite (proj2 (String.eqb_neq _ _)) by (by apply render_nonempty).
  rewrite initial_slashes_render by done.
  rewrite split_render by (done || by destruct ds).
  rewrite fold_left_app, fold_skip, fold_left_app, (fold_names _ ds) by done.
  simpl fold_left. rewrite step_pardir by done.
  fold (render k (removelast ds)).
  by rewrite (proj2 (String.eqb_neq _ _)) by (by apply render_nonempty).
Qed.

(** *** [dirname] and [join] on laid-out paths *)

(** [dirname] cuts at the last separator. *)
Lemma dirname_app_sep h t :
  Str.contains t sep = false ->
  dirname (h +:+ String sep t)
  = let head := h +:+ String sep "" in
    if negb (String.eqb head "")
       && negb (String.eqb head (Str.repeat sep (String.length head)))
    then Str.rstrip h sep else head.
Proof.
  intros Ht. unfold dirname.
  rewrite rfind_app_sep by done. rewrite slice_to_app_sep.
  cbv zeta. by rewrite rstrip_app_sep.
Qed.

Lemma dirname_slashes j t :
  Str.contains t sep = false ->
  dirname (Str.repeat sep j +:+ String sep t) = Str.repeat sep (S j).
Proof.
  intros Ht. rewrite dirname_app_sep by done. cbv zeta.
  rewrite repeat_snoc, length_repeat, String.eqb_refl.
  by rewrite andb_false_r.
Qed.

Lemma dirname_render k cs :
  k = 1%nat \/ k = 2%nat -> Forall seg_ok cs ->
  dirname (render k cs) = render k (removelast cs).
Proof.
  intros Hk Hall. destruct cs as [|x cs] using rev_ind.
  { by destruct Hk as [-> | ->]. }
  clear IHcs. rewrite removelast_last.
  apply Forall_app in Hall as [Hcs Hx]. inversion Hx as [|? ? [Hx1 Hx2] _]; subst.
  destruct cs as [|y cs].
  - unfold render. simpl Str.join. rewrite app_empty_r.
    destruct k as [|j]; [lia|]. rewrite <- repeat_snoc, app_assoc_str.
    change (String sep "" +:+ x) with (String sep x).
    by rewrite dirname_slashes, repeat_snoc.
  - destruct (join_seg_ok (y :: cs)) as [Hj1 Hj2]; [done|done|].
    unfold render. rewrite join_snoc by done.
    change ("/" +:+ x) with (String sep x). rewrite <- app_assoc_str.
    rewrite dirname_app_sep by done. cbv zeta.
    set (h := Str.repeat sep k +:+ Str.join "/" (y :: cs)).
    assert (Str.rstrip h sep = h) as Hh.
    { apply rstrip_not_endswith. unfold h. by rewrite endswith_app. }
    assert (h <> "") as Hne.
    { unfold h. intros [_ ?]%app_eq_empty. done. }
    rewrite Hh.
    rewrite (proj2 (String.eqb_neq (h +:+ String sep "") "")).
    2:{ intros [? _]%app_eq_empty. done. }
    rewrite (proj2 (String.eqb_neq (h +:+ String sep "") _)); [done|].
    intros Heq. apply Hne.
    rewrite <- Hh, <- (rstrip_app_sep h sep), Heq. apply rstrip_repeat.
Qed.

Lemma join_render_pardir k ds :
  k <> 0%nat -> Forall seg_ok ds ->
  join (render k ds) pardir = render k (ds ++ [pardir]).
Proof.
  intros Hk Hds. unfold join.
  change (Str.startswith pardir "/") with false. cbv iota.
  rewrite (proj2 (String.eqb_neq _ _)) by (by apply render_nonempty).
  cbn [orb]. destruct ds as [|d ds].
  - unfold render. simpl Str.join. rewrite app_empty_r.
    by rewrite endswith_repeat.
  - destruct (join_seg_ok (d :: ds)) as [Hj1 Hj2]; [done|done|].
    unfold render. rewrite endswith_app, Hj2 by done.
    rewrite join_snoc by done. by rewrite !app_assoc_str.
Qed.

(** The heart of path derivation: for the normalised absolute path [p] of
    the module file, [abspath(join(dirname(p), '..'))] is the parent of the
    directory that holds the file. *)
Lemma abspath_pardir cwd p :
  isabs p = true -> normpath p = p ->
  abspath cwd (join (dirname p) pardir) = dirname (dirname p).
Proof.
  intros Hp Hn. destruct (normpath_shape p Hp) as (k & cs & Hk & Hcs & Heq).
  rewrite Hn in Heq. subst p.
  assert (Forall name_ok (removelast cs)) as Hcs'.
  { destruct cs as [|x cs] using rev_ind; [done|].
    rewrite removelast_last. by apply Forall_app in Hcs as [? _]. }
  unfold abspath. rewrite isabs_join by (by apply isabs_dirname).
  rewrite !dirname_render by (done || by apply name_ok_seg_ok).
  rewrite join_render_pardir by (lia || by apply name_ok_seg_ok).
  by apply normpath_render_pardir.
Qed.

End PathFacts.

(** ** Facts about [mmt_javamain] *)

Section JavamainFacts.

Import Scripts.

(** The list display of [mmt_javamain], with the module names read from [g]. *)
#[local] Abbreviation command0 g main_class :=
  [VStr "java"; VStr "-cp"; VStr (MMT_JAR g);
   VStr ("-Dmmt.home=" +:+ MMT_ROOT g);
   VStr ("-Djava.library.path=" +:+ MMT_LIBS g);
   main_class].

(** Run a computation of [M] as far as the store is known. *)
Ltac run_M :=
  unfold mmt_javamain, list_iadd, iterate, load, store, new_list, global, raise,
    mbind, M_bind, mret, M_ret; cbn.

Lemma fresh_lookup (h : gmap loc (list value)) : h !! fresh (dom h) = None.
Proof. apply not_elem_of_dom, is_fresh. Qed.

Lemma fresh_ne (h : gmap loc (list value)) a :
  is_Some (h !! a) -> a <> fresh (dom h).
Proof. intros [x Hx] ->. by rewrite fresh_lookup in Hx. Qed.

(** Without a second argument, or with [None] for it. *)
Lemma javamain_none g h main_class args :
  default VNone args = VNone ->
  mmt_javamain main_class args (State g h)
  = (Ret (VList (fresh (dom h))),
     State g (<[fresh (dom h) := command0 g main_class]> h)).
Proof. intros Hargs. unfold mmt_javamain. by rewrite Hargs. Qed.

(** With a list for second argument. *)
Lemma javamain_list g h main_class a items :
  h !! a = Some items ->
  mmt_javamain main_class (Some (VList a)) (State g h)
  = (Ret (VList (fresh (dom h))),
     State g (<[fresh (dom h) := command0 g main_class ++ items]> h)).
Proof.
  intros Ha. pose proof (fresh_ne h a (mk_is_Some _ _ Ha)) as Hne.
  run_M.
  rewrite lookup_insert_ne by done. rewrite Ha. cbn.
  rewrite lookup_insert_eq. cbn. by rewrite insert_insert_eq.
Qed.

(** With a list that does not exist. *)
Lemma javamain_dangling g h main_class a :
  h !! a = None -> a <> fresh (dom h) ->
  fst (mmt_javamain main_class (Some (VList a)) (State g h)) = Raise SystemError.
Proof.
  intros Ha Hne.
  run_M.
  rewrite lookup_insert_ne by done. by rewrite Ha.
Qed.

(** No call rebinds a module name, however it ends. *)
Lemma javamain_globals main_class args s :
  st_globals (snd (mmt_javamain main_class args s)) = st_globals s.
Proof.
  destruct s as [g h].
  run_M.
  destruct (default VNone args) as [| t | z | a]; cbn; try done.
  - by rewrite lookup_insert_eq.
  - destruct (_ !! a); cbn; [|done]. by rewrite lookup_insert_eq.
Qed.

Lemma reachable_globals real_file cwd s :
  reachable real_file cwd s -> st_globals s = module_init real_file cwd.
Proof.
  induction 1 as [h | s name _ IH | s main_class args _ IH | s h _ IH].
  - done.
  - done.
  - by rewrite javamain_globals.
  - done.
Qed.

(** What a call returns, for every argument other than the very list the
    call is about to create. *)
Lemma javamain_returned g h main_class args :
  args <> Some (VList (fresh (dom h))) ->
  returned_list (mmt_javamain main_class args (State g h))
  = match default VNone args with
    | VNone => Some (command0 g main_class)
    | VList a => (fun items => command0 g main_class ++ items) <$> h !! a
    | VStr t => Some (command0 g main_class ++ (VStr <$> Str.chars t))
    | VInt _ => None
    end.
Proof.
  intros Hargs. destruct (default VNone args) as [| t | z | a] eqn:E.
  - rewrite javamain_none by done. cbn. by rewrite lookup_insert_eq.
  - destruct args as [v|]; [|done]. cbn in E. subst v.
    run_M.
    rewrite lookup_insert_eq. cbn. by rewrite lookup_insert_eq.
  - destruct args as [v|]; [|done]. cbn in E. by subst v.
  - destruct args as [v|]; [|done]. cbn in E. subst v.
    destruct (h !! a) as [items|] eqn:Ha.
    + rewrite (javamain_list _ _ _ _ _ Ha). cbn. by rewrite lookup_insert_eq.
    + assert (a <> fresh (dom h)) as Hne by congruence.
      pose proof (javamain_dangling g h main_class a Ha Hne) as Hd.
      unfold returned_list.
      destruct (mmt_javamain main_class (Some (VList a)) (State g h)) as [o s].
      cbn in Hd. by subst o.
Qed.

(** The module as installed under [/opt/mmt]. *)
Example module_init_opt_mmt :
  module_init "/opt/mmt/scripts/__init__.py" "/tmp"
  = Globals "/opt/mmt/scripts" "0.11.1" "/opt/mmt" "/opt/mmt/engines"
            "/opt/mmt/runtime" "/opt/mmt/opt" "/opt/mmt/lib" "/opt/mmt/build"
            "/opt/mmt/opt/bin" "/opt/mmt/build/mmt-0.11.1.jar" "/opt/mmt/build".
Proof. reflexivity. Qed.

(** Outside the interface: [+=] iterates over whatever it is given, so a
    string is appended character by character and an integer raises. *)
Example javamain_str_args g h :
  returned_list (mmt_javamain (VStr "Main") (Some (VStr "ab")) (State g h))
  = Some (command0 g (VStr "Main") ++ [VStr "a"; VStr "b"]).
Proof. by rewrite javamain_returned. Qed.

Example javamain_int_args g h :
  fst (mmt_javamain (VStr "Main") (Some (VInt 3)) (State g h)) = Raise TypeError.
Proof. reflexivity. Qed.

End JavamainFacts.

(** ** The launch command *)

Section LaunchCommand.

Import Scripts.

(** C1: every call [mmt_javamain("com.example.Main")] without a second
    argument returns the list of exactly six strings [java], [-cp], the jar
    path, [-Dmmt.home=] followed by the root, [-Djava.library.path=] followed
    by the library path, and the class name, in this order. *)
Theorem mmt_javamain_main_class_only g h :
  returned_list (mmt_javamain (VStr "com.example.Main") None (State g h))
  = Some [VStr "java"; VStr "-cp"; VStr (MMT_JAR g);
          VStr ("-Dmmt.home=" +:+ MMT_ROOT g);
          VStr ("-Djava.library.path=" +:+ MMT_LIBS g);
          VStr "com.example.Main"].
Proof. by rewrite javamain_returned. Qed.

(** C2: for every string [main_class] and every list [args] of strings
    given as second argument, the call returns the six fixed elements ending
    in [main_class], followed by the elements of [args] in their order; and
    without a second argument nothing follows [main_class]. *)
Theorem mmt_javamain_appends_args g h (main_class : string) a (xs : list string) :
  h !! a = Some (VStr <$> xs) ->
  returned_list (mmt_javamain (VStr main_class) (Some (VList a)) (State g h))
  = Some (VStr <$> (["java"; "-cp"; MMT_JAR g;
                     "-Dmmt.home=" +:+ MMT_ROOT g;
                     "-Djava.library.path=" +:+ MMT_LIBS g;
                     main_class] ++ xs))
  /\ returned_list (mmt_javamain (VStr main_class) None (State g h))
     = Some (VStr <$> ["java"; "-cp"; MMT_JAR g;
                       "-Dmmt.home=" +:+ MMT_ROOT g;
                       "-Djava.library.path=" +:+ MMT_LIBS g;
                       main_class]).
Proof.
  intros Ha. split.
  - rewrite javamain_returned; cbn.
    + by rewrite Ha.
    + intros [= ->]. by rewrite fresh_lookup in Ha.
  - by rewrite javamain_returned.
Qed.

Lemma mmt_javamain_appends_args_witness :
  let g := module_init "/opt/mmt/scripts/__init__.py" "/tmp" in
  let h : gmap loc (list value) := {[ 1%positive := [VStr "--foo"; VStr "bar"] ]} in
  h !! 1%positive = Some (VStr <$> ["--foo"; "bar"])
  /\ returned_list (mmt_javamain (VStr "com.example.Main")
                      (Some (VList 1%positive)) (State g h))
     = Some (VStr <$> ["java"; "-cp"; "/opt/mmt/build/mmt-0.11.1.jar";
                       "-Dmmt.home=/opt/mmt";
                       "-Djava.library.path=/opt/mmt/build";
                       "com.example.Main"; "--foo"; "bar"]).
Proof.
  intros g h. split; [reflexivity|].
  apply (mmt_javamain_appends_args g h "com.example.Main" 1%positive ["--foo"; "bar"]).
  reflexivity.
Defined.

(** C3: two calls with equal inputs return equal lists.  The calls may
    happen at any two moments of the process, with any reads, calls and list
    updates in between, and the argument lists may be different objects:
    with the same class name and argument lists of equal elements, or both
    without a second argument, the returned lists are equal element by
    element, and in both the fixed elements, the class name and the extra
    arguments come in the one fixed order. *)
Theorem mmt_javamain_deterministic real_file cwd s1 s2
    (main_class : string) a1 a2 items :
  reachable real_file cwd s1 -> reachable real_file cwd s2 ->
  st_heap s1 !! a1 = Some items -> st_heap s2 !! a2 = Some items ->
  (exists out,
      returned_list (mmt_javamain (VStr main_class) (Some (VList a1)) s1) = Some out
      /\ returned_list (mmt_javamain (VStr main_class) (Some (VList a2)) s2) = Some out
      /\ out = [VStr "java"; VStr "-cp"; VStr (MMT_JAR (st_globals s1));
                VStr ("-Dmmt.home=" +:+ MMT_ROOT (st_globals s1));
                VStr ("-Djava.library.path=" +:+ MMT_LIBS (st_globals s1));
                VStr main_class] ++ items)
  /\ (exists out,
         returned_list (mmt_javamain (VStr main_class) None s1) = Some out
         /\ returned_list (mmt_javamain (VStr main_class) None s2) = Some out
         /\ out = [VStr "java"; VStr "-cp"; VStr (MMT_JAR (st_globals s1));
                   VStr ("-Dmmt.home=" +:+ MMT_ROOT (st_globals s1));
                   VStr ("-Djava.library.path=" +:+ MMT_LIBS (st_globals s1));
                   VStr main_class]).
Proof.
  intros Hs1 Hs2 H1 H2.
  pose proof (reachable_globals _ _ _ Hs1) as Hg1.
  pose proof (reachable_globals _ _ _ Hs2) as Hg2.
  destruct s1 as [g1 h1], s2 as [g2 h2]. cbn in *. subst g1 g2.
  split; eexists; (split; [|split; [|reflexivity]]).
  - rewrite javamain_returned; cbn; [by rewrite H1|].
    intros [= ->]. by rewrite fresh_lookup in H1.
  - rewrite javamain_returned; cbn; [by rewrite H2|].
    intros [= ->]. by rewrite fresh_lookup in H2.
  - by rewrite javamain_returned.
  - by rewrite javamain_returned.
Qed.

Lemma mmt_javamain_deterministic_witness :
  let real_file := "/opt/mmt/scripts/__init__.py" in
  let s1 := State (module_init real_file "/tmp") {[ 1%positive := [VStr "-v"] ]} in
  let s2 :=
    State (st_globals (snd (mmt_javamain (VStr "Other") (Some (VList 1%positive)) s1)))
          {[ 1%positive := [VStr "junk"]; 7%positive := [VStr "-v"] ]} in
  (reachable real_file "/tmp" s1 /\ reachable real_file "/tmp" s2
   /\ st_heap s1 !! 1%positive = Some [VStr "-v"]
   /\ st_heap s2 !! 7%positive = Some [VStr "-v"])
  /\ exists out,
      returned_list (mmt_javamain (VStr "Main") (Some (VList 1%positive)) s1) = Some out
      /\ returned_list (mmt_javamain (VStr "Main") (Some (VList 7%positive)) s2) = Some out
      /\ out = [VStr "java"; VStr "-cp"; VStr "/opt/mmt/build/mmt-0.11.1.jar";
                VStr "-Dmmt.home=/opt/mmt";
                VStr "-Djava.library.path=/opt/mmt/build";
                VStr "Main"; VStr "-v"].
Proof.
  intros real_file s1 s2.
  assert (reachable real_file "/tmp" s1) as Hs1 by apply reach_load.
  assert (reachable real_file "/tmp" s2) as Hs2.
  { apply reach_store, reach_call, Hs1. }
  split; [repeat split; (exact Hs1 || exact Hs2 || reflexivity)|].
  apply (mmt_javamain_deterministic real_file "/tmp" s1 s2 "Main"
           1%positive 7%positive [VStr "-v"] Hs1 Hs2); reflexivity.
Defined.

End LaunchCommand.

(** ** The path constants *)

Section PathConstants.

Import PosixPath Scripts.

Lemma app_inv_tail_str s t u : s +:+ u = t +:+ u -> s = t.
Proof.
  revert t. induction s as [|a s IH]; intros [|b t] H.
  - done.
  - apply (f_equal String.length) in H.
    rewrite app_empty_l, app_String in H. simpl in H.
    rewrite length_app_str in H. lia.
  - apply (f_equal String.length) in H.
    rewrite app_empty_l, app_String in H. simpl in H.
    rewrite length_app_str in H. lia.
  - rewrite !app_String in H. injection H as -> H. by rewrite (IH t H).
Qed.

(** [join] onto a directory that neither is empty nor ends in a slash puts
    exactly one slash in between. *)
Lemma join_one_slash a b :
  a <> "" -> Str.endswith a sep = false -> Str.startswith b "/" = false ->
  join a b = a +:+ "/" +:+ b.
Proof.
  intros Ha He Hb. unfold join.
  by rewrite Hb, (proj2 (String.eqb_neq _ _) Ha), He.
Qed.

Lemma join_build a :
  join a "build" <> "" /\ Str.endswith (join a "build") sep = false.
Proof.
  unfold join. change (Str.startswith "build" "/") with false. cbv iota.
  destruct (_ || _).
  - split; [by intros [_ ?]%app_eq_empty|]. by rewrite endswith_app.
  - split; [by intros [_ [? ?]%app_eq_empty]%app_eq_empty|].
    by rewrite !endswith_app.
Qed.

(** The file name of the jar for a version does not start with a slash. *)
Lemma jar_name_relative v : Str.startswith ("mmt-" +:+ v +:+ ".jar") "/" = false.
Proof. reflexivity. Qed.

(** C4 (as amended): the jar path is computed once, when the module is
    loaded, from the version of that moment.  In every state that reads,
    calls of [mmt_javamain] and list updates lead to, the version is
    [0.11.1] and the jar path is the build directory joined with
    ["mmt-" + version + ".jar"], that is the build directory followed by
    [/mmt-0.11.1.jar]; reading it twice gives this value twice and changes
    nothing.  An assignment to the version rebinds the version alone: the
    jar path and the build directory stay as they were, and the jar path
    agrees with the new version only if the new version is [0.11.1]. *)
Theorem jar_computed_once real_file cwd s v :
  reachable real_file cwd s ->
  let g := st_globals s in
  let g' := st_globals (snd (assign_MMT_VERSION v s)) in
  MMT_VERSION g = "0.11.1"
  /\ MMT_JAR g = join (BUILD_DIR g) ("mmt-" +:+ MMT_VERSION g +:+ ".jar")
  /\ MMT_JAR g = BUILD_DIR g +:+ "/mmt-0.11.1.jar"
  /\ (jar1 ← global MMT_JAR; jar2 ← global MMT_JAR; mret (jar1, jar2)) s
     = (Ret (MMT_JAR g, MMT_JAR g), s)
  /\ MMT_VERSION g' = v
  /\ BUILD_DIR g' = BUILD_DIR g
  /\ MMT_JAR g' = MMT_JAR g
  /\ (MMT_JAR g' = join (BUILD_DIR g') ("mmt-" +:+ MMT_VERSION g' +:+ ".jar")
      <-> v = "0.11.1").
Proof.
  intros Hs g g'. pose proof (reachable_globals _ _ _ Hs) as Hg.
  assert (MMT_JAR g = BUILD_DIR g +:+ "/mmt-0.11.1.jar") as Hjar.
  { unfold g. rewrite Hg. unfold module_init. cbn [MMT_JAR BUILD_DIR].
    destruct (join_build (abspath cwd (join (dirname real_file) pardir)))
      as [Hne Hend].
    by rewrite join_one_slash. }
  split; [unfold g; rewrite Hg; reflexivity|].
  split; [unfold g; rewrite Hg; reflexivity|].
  split; [exact Hjar|]. split; [reflexivity|].
  split; [reflexivity|]. split; [reflexivity|]. split; [reflexivity|].
  change (MMT_JAR g') with (MMT_JAR g). change (BUILD_DIR g') with (BUILD_DIR g).
  change (MMT_VERSION g') with v. rewrite Hjar.
  assert (BUILD_DIR g <> "" /\ Str.endswith (BUILD_DIR g) sep = false) as [Hne Hend].
  { unfold g. rewrite Hg. apply join_build. }
  rewrite join_one_slash by (done || apply jar_name_relative).
  split.
  - intros H. apply (inj (String.app (BUILD_DIR g))) in H.
    change ("/mmt-0.11.1.jar") with ("/mmt-" +:+ ("0.11.1" +:+ ".jar")) in H.
    change ("/" +:+ "mmt-" +:+ v +:+ ".jar") with ("/mmt-" +:+ (v +:+ ".jar")) in H.
    apply (inj (String.app "/mmt-")) in H.
    symmetry. by apply (app_inv_tail_str _ _ ".jar").
  - by intros ->.
Qed.

Lemma jar_computed_once_witness :
  let s0 := State (module_init "/opt/mmt/scripts/__init__.py" "/tmp") ∅ in
  let s := snd (mmt_javamain (VStr "Main") None s0) in
  let g' := st_globals (snd (assign_MMT_VERSION "9.9.9" s)) in
  reachable "/opt/mmt/scripts/__init__.py" "/tmp" s
  /\ MMT_JAR (st_globals s) = "/opt/mmt/build/mmt-0.11.1.jar"
  /\ MMT_VERSION g' = "9.9.9"
  /\ MMT_JAR g' = "/opt/mmt/build/mmt-0.11.1.jar".
Proof.
  intros s0 s g'.
  assert (reachable "/opt/mmt/scripts/__init__.py" "/tmp" s) as Hs.
  { apply reach_call, reach_load. }
  split; [exact Hs|].
  destruct (jar_computed_once "/opt/mmt/scripts/__init__.py" "/tmp" s "9.9.9" Hs)
    as (_ & _ & Hjar & _ & Hv & _ & Hjar' & _).
  split; [etrans; [exact Hjar|reflexivity]|].
  split; [exact Hv|]. etrans; [exact Hjar'|]. etrans; [exact Hjar|reflexivity].
Defined.

(** C4 as it was stated fails: after the assignment [MMT_VERSION = "9.9.9"]
    the jar path is still the one of [0.11.1], not the build directory
    joined with [mmt-9.9.9.jar]. *)
Lemma jar_stale_after_assignment :
  let s := State (module_init "/opt/mmt/scripts/__init__.py" "/tmp") ∅ in
  let g' := st_globals (snd (assign_MMT_VERSION "9.9.9" s)) in
  MMT_VERSION g' = "9.9.9"
  /\ MMT_JAR g' = "/opt/mmt/build/mmt-0.11.1.jar"
  /\ join (BUILD_DIR g') ("mmt-" +:+ MMT_VERSION g' +:+ ".jar")
     = "/opt/mmt/build/mmt-9.9.9.jar"
  /\ MMT_JAR g' <> join (BUILD_DIR g') ("mmt-" +:+ MMT_VERSION g' +:+ ".jar").
Proof.
  intros s g'. split; [reflexivity|]. split; [reflexivity|].
  split; [reflexivity|]. intros H. vm_compute in H. discriminate H.
Qed.

(** C5: in every state of the process each of the engines, runtime, opt, lib
    and build directories is the root joined with its literal name, the bin
    directory is the opt directory joined with [bin], and the library path
    is the build directory. *)
Theorem static_joins real_file cwd s :
  reachable real_file cwd s ->
  ENGINES_DIR (st_globals s) = join (MMT_ROOT (st_globals s)) "engines"
  /\ RUNTIME_DIR (st_globals s) = join (MMT_ROOT (st_globals s)) "runtime"
  /\ OPT_DIR (st_globals s) = join (MMT_ROOT (st_globals s)) "opt"
  /\ LIB_DIR (st_globals s) = join (MMT_ROOT (st_globals s)) "lib"
  /\ BUILD_DIR (st_globals s) = join (MMT_ROOT (st_globals s)) "build"
  /\ BIN_DIR (st_globals s) = join (OPT_DIR (st_globals s)) "bin"
  /\ MMT_LIBS (st_globals s) = BUILD_DIR (st_globals s).
Proof.
  intros Hs. rewrite (reachable_globals _ _ _ Hs). repeat split; reflexivity.
Qed.

Lemma static_joins_witness :
  let s0 := State (module_init "/opt/mmt/scripts/__init__.py" "/tmp") ∅ in
  let s := snd (mmt_javamain (VStr "Main") None s0) in
  reachable "/opt/mmt/scripts/__init__.py" "/tmp" s
  /\ ENGINES_DIR (st_globals s) = "/opt/mmt/engines"
  /\ BIN_DIR (st_globals s) = "/opt/mmt/opt/bin"
  /\ MMT_LIBS (st_globals s) = "/opt/mmt/build".
Proof.
  intros s0 s.
  assert (reachable "/opt/mmt/scripts/__init__.py" "/tmp" s) as Hs.
  { apply reach_call, reach_load. }
  split; [exact Hs|].
  destruct (static_joins "/opt/mmt/scripts/__init__.py" "/tmp" s Hs)
    as (He & _ & _ & _ & _ & Hb & Hl).
  rewrite He, Hb, Hl. by repeat split.
Defined.

(** C6: let [real_file] be the symlink-resolved path of the module file, an
    absolute normalised path.  The module is located in the directory
    [__self_dir = dirname real_file], and the root is the parent directory
    of that location.  Every exposed constant is this root followed by
    literal names only, is an absolute path, and does not depend on anything
    but [real_file] (in particular not on the working directory). *)
Theorem paths_from_anchor real_file cwd :
  isabs real_file = true -> normpath real_file = real_file ->
  let g := module_init real_file cwd in
  let root := dirname (__self_dir g) in
  __self_dir g = dirname real_file
  /\ MMT_ROOT g = root
  /\ (ENGINES_DIR g = join root "engines"
      /\ RUNTIME_DIR g = join root "runtime"
      /\ OPT_DIR g = join root "opt"
      /\ LIB_DIR g = join root "lib"
      /\ BUILD_DIR g = join root "build"
      /\ BIN_DIR g = join (join root "opt") "bin"
      /\ MMT_JAR g = join (join root "build") "mmt-0.11.1.jar"
      /\ MMT_LIBS g = join root "build")
  /\ (isabs (MMT_ROOT g) = true
      /\ isabs (ENGINES_DIR g) = true
      /\ isabs (RUNTIME_DIR g) = true
      /\ isabs (OPT_DIR g) = true
      /\ isabs (LIB_DIR g) = true
      /\ isabs (BUILD_DIR g) = true
      /\ isabs (BIN_DIR g) = true
      /\ isabs (MMT_JAR g) = true
      /\ isabs (MMT_LIBS g) = true)
  /\ (forall cwd', module_init real_file cwd' = g).
Proof.
  intros Habs Hnorm g root.
  assert (forall c, MMT_ROOT (module_init real_file c) = root) as Hroot.
  { intros c. by apply abspath_pardir. }
  assert (isabs root = true) as Hr.
  { unfold root. by do 2 apply isabs_dirname. }
  split; [done|]. split; [apply Hroot|].
  split; [|split].
  - unfold g, module_init. cbn [ENGINES_DIR RUNTIME_DIR OPT_DIR LIB_DIR BUILD_DIR
                                  BIN_DIR MMT_JAR MMT_LIBS].
    pose proof (Hroot cwd) as Hc. unfold module_init in Hc. cbn [MMT_ROOT] in Hc.
    rewrite Hc. by repeat split.
  - unfold g, module_init. cbn [MMT_ROOT ENGINES_DIR RUNTIME_DIR OPT_DIR LIB_DIR
                                  BUILD_DIR BIN_DIR MMT_JAR MMT_LIBS].
    pose proof (Hroot cwd) as Hc. unfold module_init in Hc. cbn [MMT_ROOT] in Hc.
    rewrite Hc. repeat split; by repeat apply isabs_join.
  - intros cwd'. unfold g, module_init.
    pose proof (Hroot cwd) as Hc. pose proof (Hroot cwd') as Hc'.
    unfold module_init in Hc, Hc'. cbn [MMT_ROOT] in Hc, Hc'.
    by rewrite Hc, Hc'.
Qed.

Lemma paths_from_anchor_witness :
  let real_file := "/opt/mmt/scripts/__init__.py" in
  let g := module_init real_file "/tmp" in
  (isabs real_file = true /\ normpath real_file = real_file)
  /\ __self_dir g = "/opt/mmt/scripts"
  /\ MMT_ROOT g = "/opt/mmt"
  /\ module_init real_file "relative/dir" = g.
Proof.
  intros real_file g. split; [split; reflexivity|].
  destruct (paths_from_anchor real_file "/tmp" eq_refl eq_refl)
    as (Hself & Hroot & _ & _ & Hcwd).
  split; [exact Hself|]. split; [|apply Hcwd].
  etrans; [exact Hroot|]. reflexivity.
Defined.

End PathConstants.

(** ** Arguments, errors and the store *)

Section CallEffects.

Import Scripts.

(** C7: a call without a second argument and a call with an empty list for
    it cannot be told apart: for every [main_class] both return the same
    sequence (and leave the same store). *)
Theorem mmt_javamain_absent_or_empty g h main_class a :
  h !! a = Some [] ->
  mmt_javamain main_class (Some (VList a)) (State g h)
  = mmt_javamain main_class None (State g h)
  /\ returned_list (mmt_javamain main_class (Some (VList a)) (State g h))
     = returned_list (mmt_javamain main_class None (State g h))
  /\ returned_list (mmt_javamain main_class None (State g h))
     = Some [VStr "java"; VStr "-cp"; VStr (MMT_JAR g);
             VStr ("-Dmmt.home=" +:+ MMT_ROOT g);
             VStr ("-Djava.library.path=" +:+ MMT_LIBS g);
             main_class].
Proof.
  intros Ha.
  assert (mmt_javamain main_class (Some (VList a)) (State g h)
          = mmt_javamain main_class None (State g h)) as Heq.
  { rewrite (javamain_list _ _ _ _ _ Ha), javamain_none by done.
    by rewrite app_nil_r. }
  split; [exact Heq|]. split; [by rewrite Heq|]. by rewrite javamain_returned.
Qed.

Lemma mmt_javamain_absent_or_empty_witness :
  let g := module_init "/opt/mmt/scripts/__init__.py" "/tmp" in
  let h : gmap loc (list value) := {[ 3%positive := [] ]} in
  h !! 3%positive = Some []
  /\ mmt_javamain (VStr "com.example.Main") (Some (VList 3%positive)) (State g h)
     = mmt_javamain (VStr "com.example.Main") None (State g h).
Proof.
  intros g h. split; [reflexivity|].
  apply (mmt_javamain_absent_or_empty g h (VStr "com.example.Main") 3%positive).
  reflexivity.
Defined.

(** C8: for a string [main_class] and a second argument that is absent or a
    list of strings, the call raises nothing and returns a list; it rebinds
    no module name and changes no object that existed before the call (the
    only effect on the store is the new list it returns, at a location that
    was free), and the elements of that list are determined by [main_class],
    the elements of [args] and the module constants alone.  The computation
    type [M] has the store as its only effect: there is no input or output
    to perform. *)
Theorem mmt_javamain_total_and_pure g h (main_class : string) args (xs : list string) :
  (args = None /\ xs = []) \/ (exists a, args = Some (VList a) /\ h !! a = Some (VStr <$> xs)) ->
  exists r,
    h !! r = None
    /\ mmt_javamain (VStr main_class) args (State g h)
       = (Ret (VList r),
          State g (<[r := VStr <$> (["java"; "-cp"; MMT_JAR g;
                                     "-Dmmt.home=" +:+ MMT_ROOT g;
                                     "-Djava.library.path=" +:+ MMT_LIBS g;
                                     main_class] ++ xs)]> h))
    /\ (forall e, fst (mmt_javamain (VStr main_class) args (State g h)) <> Raise e)
    /\ st_globals (snd (mmt_javamain (VStr main_class) args (State g h))) = g
    /\ (forall l, is_Some (h !! l) ->
          st_heap (snd (mmt_javamain (VStr main_class) args (State g h))) !! l
          = h !! l).
Proof.
  intros Hargs. exists (fresh (dom h)).
  assert (mmt_javamain (VStr main_class) args (State g h)
          = (Ret (VList (fresh (dom h))),
             State g (<[fresh (dom h) :=
                          VStr <$> (["java"; "-cp"; MMT_JAR g;
                                     "-Dmmt.home=" +:+ MMT_ROOT g;
                                     "-Djava.library.path=" +:+ MMT_LIBS g;
                                     main_class] ++ xs)]> h))) as Heq.
  { destruct Hargs as [[-> ->] | (a & -> & Ha)].
    - by rewrite javamain_none.
    - by rewrite (javamain_list _ _ _ _ _ Ha). }
  split; [apply fresh_lookup|]. split; [exact Heq|].
  rewrite Heq. cbn [fst snd st_globals st_heap]. split; [done|]. split; [done|].
  intros l Hl. apply lookup_insert_ne. apply not_eq_sym. by apply fresh_ne.
Qed.

Lemma mmt_javamain_total_and_pure_witness :
  let g := module_init "/opt/mmt/scripts/__init__.py" "/tmp" in
  let h : gmap loc (list value) := {[ 1%positive := [VStr "--foo"; VStr "bar"] ]} in
  (exists a, Some (VList 1%positive) = Some (VList a)
             /\ h !! a = Some (VStr <$> ["--foo"; "bar"]))
  /\ exists r,
      h !! r = None
      /\ mmt_javamain (VStr "com.example.Main") (Some (VList 1%positive)) (State g h)
         = (Ret (VList r),
            State g (<[r := VStr <$> ["java"; "-cp"; "/opt/mmt/build/mmt-0.11.1.jar";
                                      "-Dmmt.home=/opt/mmt";
                                      "-Djava.library.path=/opt/mmt/build";
                                      "com.example.Main"; "--foo"; "bar"]]> h)).
Proof.
  intros g h.
  assert (exists a, Some (VList 1%positive) = Some (VList a)
                    /\ h !! a = Some (VStr <$> ["--foo"; "bar"])) as Hargs.
  { exists 1%positive. split; reflexivity. }
  split; [exact Hargs|].
  destruct (mmt_javamain_total_and_pure g h "com.example.Main"
              (Some (VList 1%positive)) ["--foo"; "bar"] (or_intror Hargs))
    as (r & Hr & Heq & _).
  exists r. split; [exact Hr|exact Heq].
Defined.

(** C9: a call neither changes its [args] list nor hands out a list it will
    use again: after the call the list [args] has the elements it had, the
    returned list is a new object (distinct from [args] and from every list
    that existed), and whatever is later stored into the returned list, a
    subsequent call whose second argument is not that very list returns
    what it would have returned without the mutation. *)
Theorem mmt_javamain_frame g h main_class a items :
  h !! a = Some items ->
  exists r h',
    mmt_javamain main_class (Some (VList a)) (State g h) = (Ret (VList r), State g h')
    /\ h' !! a = Some items
    /\ r <> a /\ h !! r = None
    /\ (forall l, is_Some (h !! l) -> h' !! l = h !! l)
    /\ (forall junk main_class' args',
          (forall a', args' = Some (VList a') -> a' <> r /\ is_Some (h' !! a')) ->
          returned_list (mmt_javamain main_class' args' (State g (<[r := junk]> h')))
          = returned_list (mmt_javamain main_class' args' (State g h'))).
Proof.
  intros Ha. eexists _, _. split; [by apply javamain_list|].
  pose proof (fresh_ne h a (mk_is_Some _ _ Ha)) as Hne.
  split; [by rewrite lookup_insert_ne|].
  split; [done|]. split; [apply fresh_lookup|].
  split.
  { intros l Hl. apply lookup_insert_ne, not_eq_sym. by apply fresh_ne. }
  intros junk main_class' args' Hargs.
  set (r := fresh (dom h)) in *.
  set (h' := <[r := _]> h) in *.
  assert (args' <> Some (VList r)) as Hr.
  { intros ->. by destruct (Hargs r eq_refl). }
  assert (args' <> Some (VList (fresh (dom h')))) as Hfresh.
  { intros ->. destruct (Hargs _ eq_refl) as [_ [x Hx]].
    by rewrite fresh_lookup in Hx. }
  assert (dom (<[r := junk]> h') = dom h') as Hdom.
  { rewrite dom_insert_L. apply subseteq_union_1_L, singleton_subseteq_l.
    apply elem_of_dom. unfold h'. rewrite lookup_insert_eq. by eexists. }
  rewrite !javamain_returned by (by rewrite ?Hdom).
  destruct (default VNone args') as [| t | z | a'] eqn:E; try done.
  destruct args' as [v|]; [|done]. cbn in E. subst v.
  rewrite lookup_insert_ne by congruence. done.
Qed.

Lemma mmt_javamain_frame_witness :
  let g := module_init "/opt/mmt/scripts/__init__.py" "/tmp" in
  let h : gmap loc (list value) := {[ 1%positive := [VStr "--foo"; VStr "bar"] ]} in
  h !! 1%positive = Some [VStr "--foo"; VStr "bar"]
  /\ exists r h',
      mmt_javamain (VStr "com.example.Main") (Some (VList 1%positive)) (State g h)
      = (Ret (VList r), State g h')
      /\ h' !! 1%positive = Some [VStr "--foo"; VStr "bar"]
      /\ r <> 1%positive.
Proof.
  intros g h. split; [reflexivity|].
  destruct (mmt_javamain_frame g h (VStr "com.example.Main") 1%positive
              [VStr "--foo"; VStr "bar"] eq_refl)
    as (r & h' & Heq & Hargs & Hne & _).
  exists r, h'. split; [exact Heq|]. split; [exact Hargs|exact Hne].
Defined.

(** C10: the empty string is accepted for [main_class]: the call returns
    the usual six elements with the empty string at index 5, and for no
    string whatever does a call without further arguments raise. *)
Theorem mmt_javamain_empty_main_class g h :
  returned_list (mmt_javamain (VStr "") None (State g h))
  = Some [VStr "java"; VStr "-cp"; VStr (MMT_JAR g);
          VStr ("-Dmmt.home=" +:+ MMT_ROOT g);
          VStr ("-Djava.library.path=" +:+ MMT_LIBS g);
          VStr ""]
  /\ (forall out,
         returned_list (mmt_javamain (VStr "") None (State g h)) = Some out ->
         length out = 6%nat /\ out !! 5%nat = Some (VStr ""))
  /\ (forall main_class : string,
         exists r, fst (mmt_javamain (VStr main_class) None (State g h))
                   = Ret (VList r)).
Proof.
  split; [by rewrite javamain_returned|]. split.
  - rewrite javamain_returned by done. cbn. by intros out [= <-].
  - intros main_class. rewrite javamain_none by done. by eexists.
Qed.

End CallEffects.

(** ** The installation layout in components *)

Section Layout.

Import PosixPath Shape Scripts.

(** [normpath] leaves a laid-out path of proper names as it is. *)
Lemma normpath_render k cs :
  k = 1%nat \/ k = 2%nat -> Forall name_ok cs -> normpath (render k cs) = render k cs.
Proof.
  intros Hk Hcs. destruct cs as [|c cs].
  { by destruct Hk as [-> | ->]. }
  assert (k <> 0%nat) as Hk0 by lia.
  unfold normpath.
  rewrite (proj2 (String.eqb_neq _ _)) by (by apply render_nonempty).
  rewrite initial_slashes_render by (done || by apply name_ok_seg_ok).
  rewrite split_render by (done || by apply name_ok_seg_ok).
  rewrite fold_left_app, fold_skip, fold_names by done.
  rewrite app_nil_l. fold (render k (c :: cs)).
  by rewrite (proj2 (String.eqb_neq _ _)) by (by apply render_nonempty).
Qed.

Lemma seg_ok_startswith c : seg_ok c -> Str.startswith c "/" = false.
Proof.
  intros (a & t & -> & Ha)%seg_ok_head.
  rewrite startswith_String, Ascii.eqb_sym. fold sep. by rewrite Ha.
Qed.

(** Joining one more name onto a laid-out path adds one component. *)
Lemma join_render_seg k cs c :
  k <> 0%nat -> Forall seg_ok cs -> seg_ok c ->
  join (render k cs) c = render k (cs ++ [c]).
Proof.
  intros Hk Hcs Hc. unfold join. rewrite seg_ok_startswith by done.
  rewrite (proj2 (String.eqb_neq _ _)) by (by apply render_nonempty).
  cbn [orb]. destruct cs as [|d cs].
  - unfold render. simpl Str.join. rewrite app_empty_r.
    by rewrite endswith_repeat.
  - destruct (join_seg_ok (d :: cs)) as [Hj1 Hj2]; [done|done|].
    unfold render. rewrite endswith_app, Hj2 by done.
    rewrite join_snoc by done. by rewrite !app_assoc_str.
Qed.

Lemma dirname_render_snoc k cs c :
  k = 1%nat \/ k = 2%nat -> Forall seg_ok cs -> seg_ok c ->
  dirname (render k (cs ++ [c])) = render k cs.
Proof.
  intros Hk Hcs Hc. rewrite dirname_render.
  - by rewrite removelast_last.
  - done.
  - apply Forall_app. split; [done|]. constructor; [done|constructor].
Qed.

(** The module names after load, in components: [cs] are the components of
    the root and every other name adds literal components to them. *)
Lemma module_init_render real_file cwd :
  isabs real_file = true ->
  exists k cs,
    (k = 1%nat \/ k = 2%nat) /\ Forall name_ok cs
    /\ module_init real_file cwd
       = Globals (dirname real_file) "0.11.1" (render k cs)
           (render k (cs ++ ["engines"])) (render k (cs ++ ["runtime"]))
           (render k (cs ++ ["opt"])) (render k (cs ++ ["lib"]))
           (render k (cs ++ ["build"])) (render k ((cs ++ ["opt"]) ++ ["bin"]))
           (render k ((cs ++ ["build"]) ++ ["mmt-0.11.1.jar"]))
           (render k (cs ++ ["build"])).
Proof.
  intros Habs.
  destruct (normpath_shape (join (dirname real_file) pardir))
    as (k & cs & Hk & Hcs & Hroot).
  { by apply isabs_join, isabs_dirname. }
  exists k, cs. split; [done|]. split; [done|].
  assert (k <> 0%nat) as Hk0 by lia.
  pose proof (name_ok_seg_ok _ Hcs) as Hseg.
  assert (forall c, seg_ok c -> Forall seg_ok (cs ++ [c])) as Hsnoc.
  { intros c Hc. apply Forall_app. split; [done|]. constructor; [done|constructor]. }
  unfold module_init, abspath.
  rewrite isabs_join by (by apply isabs_dirname). rewrite Hroot.
  change ("mmt-" +:+ "0.11.1" +:+ ".jar") with "mmt-0.11.1.jar".
  rewrite !(join_render_seg k cs) by (done || by split).
  rewrite !join_render_seg by (done || by split || (apply Hsnoc; by split)).
  done.
Qed.

Lemma name_ok_snoc cs c : Forall name_ok cs -> name_ok c -> Forall name_ok (cs ++ [c]).
Proof. intros Hcs Hc. apply Forall_app. split; [done|]. constructor; [done|constructor]. Qed.

(** X1: whatever absolute path the module file has, normalised or not,
    every path constant is in normal form: [normpath] returns it
    unchanged. *)
Theorem constants_normalised real_file cwd :
  isabs real_file = true ->
  let g := module_init real_file cwd in
  normpath (MMT_ROOT g) = MMT_ROOT g
  /\ normpath (ENGINES_DIR g) = ENGINES_DIR g
  /\ normpath (RUNTIME_DIR g) = RUNTIME_DIR g
  /\ normpath (OPT_DIR g) = OPT_DIR g
  /\ normpath (LIB_DIR g) = LIB_DIR g
  /\ normpath (BUILD_DIR g) = BUILD_DIR g
  /\ normpath (BIN_DIR g) = BIN_DIR g
  /\ normpath (MMT_JAR g) = MMT_JAR g
  /\ normpath (MMT_LIBS g) = MMT_LIBS g.
Proof.
  intros Habs g.
  destruct (module_init_render real_file cwd Habs) as (k & cs & Hk & Hcs & Hg).
  unfold g. rewrite Hg. cbn [MMT_ROOT ENGINES_DIR RUNTIME_DIR OPT_DIR LIB_DIR
                               BUILD_DIR BIN_DIR MMT_JAR MMT_LIBS].
  repeat split; apply normpath_render; try done;
    repeat (apply name_ok_snoc; [|by repeat split]); done.
Qed.

Lemma constants_normalised_witness :
  let real_file := "/srv/./mmt//current/../v1/scripts/__init__.py" in
  let g := module_init real_file "/tmp" in
  isabs real_file = true
  /\ MMT_JAR g = "/srv/mmt/v1/build/mmt-0.11.1.jar"
  /\ normpath (MMT_JAR g) = MMT_JAR g.
Proof.
  intros real_file g. split; [reflexivity|]. split; [reflexivity|].
  destruct (constants_normalised real_file "/tmp" eq_refl)
    as (_ & _ & _ & _ & _ & _ & _ & Hjar & _).
  exact Hjar.
Defined.

(** X2: for every absolute path of the module file, [dirname] takes each
    derived constant back to the constant it was joined onto: the five
    directories to the root, the bin directory to the opt directory, and the
    jar to the build directory, which is the library path.  This holds also
    when the root is [/], where [join] adds no slash of its own. *)
Theorem constants_parent real_file cwd :
  isabs real_file = true ->
  let g := module_init real_file cwd in
  dirname (ENGINES_DIR g) = MMT_ROOT g
  /\ dirname (RUNTIME_DIR g) = MMT_ROOT g
  /\ dirname (OPT_DIR g) = MMT_ROOT g
  /\ dirname (LIB_DIR g) = MMT_ROOT g
  /\ dirname (BUILD_DIR g) = MMT_ROOT g
  /\ dirname (BIN_DIR g) = OPT_DIR g
  /\ dirname (MMT_JAR g) = MMT_LIBS g.
Proof.
  intros Habs g.
  destruct (module_init_render real_file cwd Habs) as (k & cs & Hk & Hcs & Hg).
  pose proof (name_ok_seg_ok _ Hcs) as Hseg.
  assert (forall c, seg_ok c -> Forall seg_ok (cs ++ [c])) as Hsnoc.
  { intros c Hc. apply Forall_app. split; [done|]. constructor; [done|constructor]. }
  unfold g. rewrite Hg. cbn [MMT_ROOT ENGINES_DIR RUNTIME_DIR OPT_DIR LIB_DIR
                               BUILD_DIR BIN_DIR MMT_JAR MMT_LIBS].
  repeat split; apply dirname_render_snoc; try done;
    try (by split); apply Hsnoc; by split.
Qed.

Lemma constants_parent_witness :
  let real_file := "/scripts/__init__.py" in
  let g := module_init real_file "/tmp" in
  isabs real_file = true
  /\ MMT_ROOT g = "/"
  /\ ENGINES_DIR g = "/engines"
  /\ dirname (ENGINES_DIR g) = MMT_ROOT g
  /\ dirname (MMT_JAR g) = MMT_LIBS g.
Proof.
  intros real_file g. split; [reflexivity|]. split; [reflexivity|].
  split; [reflexivity|].
  destruct (constants_parent real_file "/tmp" eq_refl)
    as (Heng & _ & _ & _ & _ & _ & Hjar).
  split; [exact Heng|exact Hjar].
Defined.

(** X3: when the resolved path of the module file is [/c1/.../cn], made of
    proper names, the module directory is [/c1/.../c(n-1)] and the root is
    [/c1/.../c(n-2)]: the root drops the last two components.  With two
    components or fewer the root is [/]: it never climbs above the file
    system root. *)
Theorem root_drops_two_components cs cwd :
  Forall name_ok cs ->
  let g := module_init ("/" +:+ Str.join "/" cs) cwd in
  __self_dir g = "/" +:+ Str.join "/" (removelast cs)
  /\ MMT_ROOT g = "/" +:+ Str.join "/" (removelast (removelast cs))
  /\ ((length cs <= 2)%nat -> MMT_ROOT g = "/").
Proof.
  intros Hcs g.
  assert (forall l, Forall name_ok l -> Forall name_ok (removelast l)) as Hrl.
  { intros l Hl. destruct l as [|x l] using rev_ind; [done|].
    rewrite removelast_last. by apply Forall_app in Hl as [? _]. }
  assert (__self_dir g = render 1 (removelast cs)) as Hself.
  { apply (dirname_render 1 cs); [by left|by apply name_ok_seg_ok]. }
  assert (MMT_ROOT g = render 1 (removelast (removelast cs))) as Hroot.
  { unfold g. change ("/" +:+ Str.join "/" cs) with (render 1 cs).
    unfold module_init. cbn [MMT_ROOT].
    rewrite (abspath_pardir cwd (render 1 cs)).
    - rewrite !dirname_render; try done; try (by left);
        apply name_ok_seg_ok; auto.
    - apply isabs_String.
    - apply normpath_render; [by left|done]. }
  split; [exact Hself|]. split; [exact Hroot|].
  intros Hlen. rewrite Hroot.
  destruct cs as [|c1 [|c2 [|c3 cs]]]; try done. simpl in Hlen. lia.
Qed.

Lemma root_drops_two_components_witness :
  let cs := ["opt"; "mmt"; "scripts"; "__init__.py"] in
  Forall name_ok cs
  /\ MMT_ROOT (module_init "/opt/mmt/scripts/__init__.py" "/tmp") = "/opt/mmt".
Proof.
  intros cs.
  assert (Forall name_ok cs) as Hcs.
  { repeat constructor; discriminate. }
  split; [exact Hcs|].
  destruct (root_drops_two_components cs "/tmp" Hcs) as (_ & Hroot & _).
  exact Hroot.
Defined.

(** X4: from load to launch.  When the module is loaded from the
    normalised absolute path [real_file], then at any later moment of the
    process a call without extra arguments returns the command whose jar is
    [build/mmt-0.11.1.jar] under the directory two levels above [real_file],
    whose [mmt.home] is that directory and whose library path is its [build]
    directory: the jar on the class path lies in the library path, which
    lies in the home directory. *)
Theorem launch_from_anchor real_file cwd s (main_class : string) :
  isabs real_file = true -> normpath real_file = real_file ->
  reachable real_file cwd s ->
  let root := dirname (dirname real_file) in
  let build := join root "build" in
  let jar := join build "mmt-0.11.1.jar" in
  returned_list (mmt_javamain (VStr main_class) None s)
  = Some [VStr "java"; VStr "-cp"; VStr jar;
          VStr ("-Dmmt.home=" +:+ root);
          VStr ("-Djava.library.path=" +:+ build);
          VStr main_class]
  /\ dirname jar = build /\ dirname build = root.
Proof.
  intros Habs Hnorm Hs root build jar.
  pose proof (reachable_globals _ _ _ Hs) as Hg.
  assert (MMT_ROOT (module_init real_file cwd) = root) as Hroot.
  { by apply abspath_pardir. }
  destruct s as [g h]. cbn in Hg. subst g.
  split.
  - rewrite javamain_returned by done. cbn [default].
    unfold module_init in *. cbn [MMT_ROOT MMT_JAR MMT_LIBS] in *.
    by rewrite Hroot.
  - destruct (module_init_render real_file cwd Habs) as (k & cs & Hk & Hcs & Hgl).
    pose proof (f_equal MMT_ROOT Hgl) as Hr. rewrite Hroot in Hr. cbn in Hr.
    pose proof (name_ok_seg_ok _ Hcs) as Hseg.
    assert (forall c, seg_ok c -> Forall seg_ok (cs ++ [c])) as Hsnoc.
    { intros c Hc. apply Forall_app. split; [done|]. constructor; [done|constructor]. }
    assert (k <> 0%nat) as Hk0 by lia.
    unfold jar, build. rewrite Hr.
    rewrite !join_render_seg by (done || by split || (apply Hsnoc; by split)).
    rewrite !dirname_render_snoc by (done || by split || (apply Hsnoc; by split)).
    done.
Qed.

Lemma launch_from_anchor_witness :
  let real_file := "/opt/mmt/scripts/__init__.py" in
  let s0 := State (module_init real_file "/tmp") ∅ in
  let s := snd (mmt_javamain (VStr "First") None s0) in
  (isabs real_file = true /\ normpath real_file = real_file
   /\ reachable real_file "/tmp" s)
  /\ returned_list (mmt_javamain (VStr "eu.modernmt.cli.Main") None s)
     = Some [VStr "java"; VStr "-cp"; VStr "/opt/mmt/build/mmt-0.11.1.jar";
             VStr "-Dmmt.home=/opt/mmt";
             VStr "-Djava.library.path=/opt/mmt/build";
             VStr "eu.modernmt.cli.Main"].
Proof.
  intros real_file s0 s.
  assert (reachable real_file "/tmp" s) as Hs.
  { apply reach_call, reach_load. }
  split; [repeat split; (exact Hs || reflexivity)|].
  destruct (launch_from_anchor real_file "/tmp" s "eu.modernmt.cli.Main"
              eq_refl eq_refl Hs) as [Hcmd _].
  exact Hcmd.
Defined.

End Layout.

(** ** Calls outside the interface and calls in sequence *)

Section CallSequences.

Import Scripts.

(** The list display of [mmt_javamain], with the module names read from [g]. *)
#[local] Abbreviation launch g main_class :=
  [VStr "java"; VStr "-cp"; VStr (MMT_JAR g);
   VStr ("-Dmmt.home=" +:+ MMT_ROOT g);
   VStr ("-Djava.library.path=" +:+ MMT_LIBS g);
   main_class].

Lemma concat_empty_cons x xs :
  String.concat "" (x :: xs) = x +:+ String.concat "" xs.
Proof. destruct xs; [by rewrite app_empty_r|done]. Qed.

(** The characters of a string, put together again, are the string. *)
Lemma chars_aux_concat t :
  fst (Str.chars_aux t) +:+ String.concat "" (snd (Str.chars_aux t)) = t.
Proof.
  induction t as [|a t IH]; [done|].
  cbn [Str.chars_aux]. destruct (Str.chars_aux t) as [pending cs].
  cbn [fst snd] in IH. destruct (Str.is_continuation a); cbn [fst snd].
  - by rewrite app_String, IH.
  - by rewrite app_empty_l, concat_empty_cons, app_String, IH.
Qed.

Lemma chars_concat t : String.concat "" (Str.chars t) = t.
Proof.
  pose proof (chars_aux_concat t) as H. unfold Str.chars.
  destruct (Str.chars_aux t) as [[|a pending] cs]; cbn [fst snd] in H.
  - done.
  - by rewrite concat_empty_cons.
Qed.

Lemma chars_aux_ascii t :
  Str.isascii t = true ->
  Str.chars_aux t
  = ("", (fun c => String c EmptyString) <$> list_ascii_of_string t).
Proof.
  induction t as [|a t IH]; [done|].
  cbn [Str.isascii]. intros [Ha Ht]%andb_true_iff.
  cbn [Str.chars_aux]. rewrite (IH Ht).
  destruct a as [b0 b1 b2 b3 b4 b5 b6 b7]. cbn in Ha.
  apply negb_true_iff in Ha as ->. done.
Qed.

Lemma length_list_ascii t : length (list_ascii_of_string t) = String.length t.
Proof. induction t as [|a t IH]; [done|]. cbn. by rewrite IH. Qed.

(** X5: a string given for [args] is not taken as one argument: [+=]
    iterates over it, so the command gets one element per character, the
    elements being the pieces of the string in order.  For a string of
    ASCII characters that is one element per byte, [6 + len(args)] elements
    in all, and the empty string adds nothing. *)
Theorem mmt_javamain_str_args g h main_class (t : string) :
  exists out,
    returned_list (mmt_javamain main_class (Some (VStr t)) (State g h)) = Some out
    /\ out = launch g main_class ++ (VStr <$> Str.chars t)
    /\ String.concat "" (Str.chars t) = t
    /\ (Str.isascii t = true ->
        Str.chars t = (fun c => String c EmptyString) <$> list_ascii_of_string t
        /\ length out = (6 + String.length t)%nat)
    /\ returned_list (mmt_javamain main_class (Some (VStr "")) (State g h))
       = returned_list (mmt_javamain main_class None (State g h)).
Proof.
  eexists. split; [by rewrite javamain_returned|]. split; [done|].
  split; [apply chars_concat|]. split.
  - intros Ht. unfold Str.chars. rewrite (chars_aux_ascii t Ht).
    split; [done|]. cbn. by rewrite !length_fmap, length_list_ascii.
  - by rewrite !javamain_returned.
Qed.

Lemma mmt_javamain_str_args_witness :
  let g := module_init "/opt/mmt/scripts/__init__.py" "/tmp" in
  Str.isascii "-v" = true
  /\ returned_list (mmt_javamain (VStr "Main") (Some (VStr "-v")) (State g ∅))
     = Some [VStr "java"; VStr "-cp"; VStr "/opt/mmt/build/mmt-0.11.1.jar";
             VStr "-Dmmt.home=/opt/mmt";
             VStr "-Djava.library.path=/opt/mmt/build";
             VStr "Main"; VStr "-"; VStr "v"].
Proof.
  intros g. split; [reflexivity|].
  destruct (mmt_javamain_str_args g ∅ (VStr "Main") "-v")
    as (out & Hret & Hout & _ & Hascii & _).
  destruct (Hascii eq_refl) as [Hchars _].
  rewrite Hret, Hout, Hchars. reflexivity.
Defined.

(** A character outside ASCII takes several bytes and is one element. *)
Example str_args_one_element_per_character g h :
  returned_list (mmt_javamain (VStr "Main") (Some (VStr "a日b")) (State g h))
  = Some (launch g (VStr "Main") ++ [VStr "a"; VStr "日"; VStr "b"]).
Proof. by rewrite javamain_returned. Qed.

(** X6: an integer given for [args] makes the call raise [TypeError]; the
    module names and every list that existed keep their values. *)
Theorem mmt_javamain_int_args g h main_class (z : Z) :
  fst (mmt_javamain main_class (Some (VInt z)) (State g h)) = Raise TypeError
  /\ st_globals (snd (mmt_javamain main_class (Some (VInt z)) (State g h))) = g
  /\ (forall l, is_Some (h !! l) ->
        st_heap (snd (mmt_javamain main_class (Some (VInt z)) (State g h))) !! l
        = h !! l).
Proof.
  split; [done|]. split; [done|].
  intros l Hl. cbn. apply lookup_insert_ne, not_eq_sym. by apply fresh_ne.
Qed.

(** X7: the returned command holds the elements [args] had at the call,
    not the list [args] itself: whatever is stored into [args] afterwards,
    the returned command keeps its elements. *)
Theorem mmt_javamain_copies_args g h main_class a items :
  h !! a = Some items ->
  exists r h',
    mmt_javamain main_class (Some (VList a)) (State g h) = (Ret (VList r), State g h')
    /\ forall junk, <[a := junk]> h' !! r = Some (launch g main_class ++ items).
Proof.
  intros Ha. eexists _, _. split; [by apply javamain_list|].
  intros junk. pose proof (fresh_ne h a (mk_is_Some _ _ Ha)) as Hne.
  rewrite lookup_insert_ne by done. by rewrite lookup_insert_eq.
Qed.

Lemma mmt_javamain_copies_args_witness :
  let g := module_init "/opt/mmt/scripts/__init__.py" "/tmp" in
  let h : gmap loc (list value) := {[ 1%positive := [VStr "--foo"] ]} in
  h !! 1%positive = Some [VStr "--foo"]
  /\ exists r h',
      mmt_javamain (VStr "Main") (Some (VList 1%positive)) (State g h)
      = (Ret (VList r), State g h')
      /\ <[1%positive := [VStr "--bar"; VStr "--baz"]]> h' !! r
         = Some [VStr "java"; VStr "-cp"; VStr "/opt/mmt/build/mmt-0.11.1.jar";
                 VStr "-Dmmt.home=/opt/mmt";
                 VStr "-Djava.library.path=/opt/mmt/build";
                 VStr "Main"; VStr "--foo"].
Proof.
  intros g h. split; [reflexivity|].
  destruct (mmt_javamain_copies_args g h (VStr "Main") 1%positive
              [VStr "--foo"] eq_refl) as (r & h' & Heq & Hkeep).
  exists r, h'. split; [exact Heq|]. apply Hkeep.
Defined.

(** X8: two calls in a row return two different list objects, and the
    second call leaves the first command as it was: no list is shared
    between calls. *)
Theorem mmt_javamain_twice g h main_class1 main_class2 a1 a2 items1 items2 :
  h !! a1 = Some items1 -> h !! a2 = Some items2 ->
  exists r1 h1 r2 h2,
    mmt_javamain main_class1 (Some (VList a1)) (State g h)
    = (Ret (VList r1), State g h1)
    /\ mmt_javamain main_class2 (Some (VList a2)) (State g h1)
       = (Ret (VList r2), State g h2)
    /\ r1 <> r2
    /\ h2 !! r1 = Some (launch g main_class1 ++ items1)
    /\ h2 !! r2 = Some (launch g main_class2 ++ items2).
Proof.
  intros H1 H2.
  set (r1 := fresh (dom h)).
  set (h1 := <[r1 := launch g main_class1 ++ items1]> h).
  assert (h1 !! r1 = Some (launch g main_class1 ++ items1)) as Hr1.
  { apply lookup_insert_eq. }
  assert (h1 !! a2 = Some items2) as H2'.
  { unfold h1. rewrite lookup_insert_ne; [done|].
    apply not_eq_sym, fresh_ne. by eexists. }
  exists r1, h1, (fresh (dom h1)),
    (<[fresh (dom h1) := launch g main_class2 ++ items2]> h1).
  split; [by apply javamain_list|]. split; [by apply javamain_list|].
  assert (r1 <> fresh (dom h1)) as Hne by (apply fresh_ne; by eexists).
  split; [done|]. split.
  - by rewrite lookup_insert_ne.
  - apply lookup_insert_eq.
Qed.

Lemma mmt_javamain_twice_witness :
  let g := module_init "/opt/mmt/scripts/__init__.py" "/tmp" in
  let h : gmap loc (list value) := {[ 1%positive := [VStr "-v"] ]} in
  (h !! 1%positive = Some [VStr "-v"] /\ h !! 1%positive = Some [VStr "-v"])
  /\ exists r1 h1 r2 h2,
      mmt_javamain (VStr "A") (Some (VList 1%positive)) (State g h)
      = (Ret (VList r1), State g h1)
      /\ mmt_javamain (VStr "B") (Some (VList 1%positive)) (State g h1)
         = (Ret (VList r2), State g h2)
      /\ r1 <> r2.
Proof.
  intros g h. split; [split; reflexivity|].
  destruct (mmt_javamain_twice g h (VStr "A") (VStr "B") 1%positive 1%positive
              [VStr "-v"] [VStr "-v"] eq_refl eq_refl)
    as (r1 & h1 & r2 & h2 & Hc1 & Hc2 & Hne & _).
  exists r1, h1, r2, h2. split; [exact Hc1|]. split; [exact Hc2|exact Hne].
Defined.

(** X9: a returned command can be given as [args] to a further call: the
    new command is the new six elements followed by the whole first command,
    and the first command is left as it was. *)
Theorem mmt_javamain_nested g h main_class1 main_class2 a items :
  h !! a = Some items ->
  exists r1 h1 r2 h2,
    mmt_javamain main_class1 (Some (VList a)) (State g h)
    = (Ret (VList r1), State g h1)
    /\ mmt_javamain main_class2 (Some (VList r1)) (State g h1)
       = (Ret (VList r2), State g h2)
    /\ r1 <> r2
    /\ h2 !! r2
       = Some (launch g main_class2 ++ launch g main_class1 ++ items)
    /\ h2 !! r1 = Some (launch g main_class1 ++ items).
Proof.
  intros Ha.
  set (r1 := fresh (dom h)).
  set (h1 := <[r1 := launch g main_class1 ++ items]> h).
  assert (h1 !! r1 = Some (launch g main_class1 ++ items)) as Hr1.
  { apply lookup_insert_eq. }
  exists r1, h1, (fresh (dom h1)),
    (<[fresh (dom h1) :=
         launch g main_class2 ++ launch g main_class1 ++ items]> h1).
  split; [by apply javamain_list|]. split; [by apply javamain_list|].
  assert (r1 <> fresh (dom h1)) as Hne by (apply fresh_ne; by eexists).
  split; [done|]. split.
  - apply lookup_insert_eq.
  - by rewrite lookup_insert_ne.
Qed.

Lemma mmt_javamain_nested_witness :
  let g := module_init "/opt/mmt/scripts/__init__.py" "/tmp" in
  let h : gmap loc (list value) := {[ 1%positive := [VStr "-v"] ]} in
  h !! 1%positive = Some [VStr "-v"]
  /\ exists r1 h1 r2 h2,
      mmt_javamain (VStr "A") (Some (VList 1%positive)) (State g h)
      = (Ret (VList r1), State g h1)
      /\ mmt_javamain (VStr "B") (Some (VList r1)) (State g h1)
         = (Ret (VList r2), State g h2)
      /\ length <$> h2 !! r2 = Some 13%nat.
Proof.
  intros g h. split; [reflexivity|].
  destruct (mmt_javamain_nested g h (VStr "A") (VStr "B") 1%positive
              [VStr "-v"] eq_refl)
    as (r1 & h1 & r2 & h2 & Hc1 & Hc2 & _ & Hout & _).
  exists r1, h1, r2, h2. split; [exact Hc1|]. split; [exact Hc2|].
  by rewrite Hout.
Defined.

End CallSequences.
